(** * create_project_structure.py: the project scaffolder

    A shallow embedding of [src/create_project_structure.py] and the
    properties of its template writer, allow-list loader and pruner.

    The script is straight-line file-system orchestration.  The embedding
    keeps its shape: every Python function is a computation in a small
    state-and-exception monad over a directory tree, [try]/[except] is
    [try_except] with the exception class of the handler, a [for] loop is
    [for_each], and [print] appends a line to the captured standard output.

    Library calls whose code is not part of the repository
    ([hashlib.sha256], [venv.create], [json.load], the process started by
    [subprocess.run]) are parameters of the section that holds the script. *)

From Stdlib Require Import ZArith Ascii String.
From stdpp Require Import gmap strings list fin_maps.

Set Warnings "-register-all".

(* ===================================================================== *)
(** ** Python exceptions *)
(* ===================================================================== *)

Inductive exn :=
  | FileNotFoundError
  | NotADirectoryError
  | IsADirectoryError
  | PermissionError
  | FileExistsError
  | JSONDecodeError
  | CalledProcessError (returncode : Z)
  | OtherError (what : string).

(** [except OSError]: the five file-system errors are subclasses of
    [OSError]; [json.JSONDecodeError] is a [ValueError] and
    [subprocess.CalledProcessError] a [SubprocessError]. *)
Definition is_OSError (e : exn) : bool :=
  match e with
  | FileNotFoundError | NotADirectoryError | IsADirectoryError
  | PermissionError | FileExistsError => true
  | JSONDecodeError | CalledProcessError _ | OtherError _ => false
  end.

(** [except FileNotFoundError] *)
Definition is_FileNotFoundError (e : exn) : bool :=
  match e with FileNotFoundError => true | _ => false end.

(** [except subprocess.CalledProcessError] *)
Definition is_CalledProcessError (e : exn) : bool :=
  match e with CalledProcessError _ => true | _ => false end.

(** [except Exception]: every exception of the model. *)
Definition is_Exception (e : exn) : bool := true.

(* ===================================================================== *)
(** ** Paths *)
(* ===================================================================== *)

(** A path is the list of its components, outermost first; the empty list
    is the root of the tree.  The components [.] and [..] are plain names
    here: the model does not resolve them. *)
Abbreviation path := (list string).

(** [s.split("/")] *)
Fixpoint split_sep (s : string) : list string :=
  match s with
  | EmptyString => [EmptyString]
  | String c s' =>
      if Ascii.eqb c "/"%char then EmptyString :: split_sep s'
      else match split_sep s' with
           | [] => [String c EmptyString]
           | w :: ws => String c w :: ws
           end
  end.

(** The components of a path string: the non-empty pieces between
    separators. *)
Definition components (s : string) : path :=
  filter (λ w, w ≠ EmptyString) (split_sep s).

Definition is_abs (s : string) : bool :=
  match s with
  | String c _ => Ascii.eqb c "/"%char
  | EmptyString => false
  end.

(** [os.path.join(a, b)] for a path [a] and a string [b]: an absolute [b]
    replaces [a]. *)
Definition os_path_join (a : path) (b : string) : path :=
  if is_abs b then components b else a ++ components b.

(** [os.path.commonprefix] on two component lists, returned as the two
    remainders after the common prefix. *)
Fixpoint strip_common (start_list path_list : path) : path * path :=
  match start_list, path_list with
  | x :: start', y :: path' =>
      if decide (x = y) then strip_common start' path'
      else (start_list, path_list)
  | _, _ => (start_list, path_list)
  end.

(** ["/".join(l)] *)
Fixpoint sep_join (l : list string) : string :=
  match l with
  | [] => ""
  | [x] => x
  | x :: l' => x +:+ "/" +:+ sep_join l'
  end.

(** [os.path.relpath(p, start)] (posixpath): one [..] for every component
    of [start] after the common prefix, then the rest of [p]; [.] if that
    is empty. *)
Definition os_path_relpath (p start : path) : string :=
  let '(start_rest, path_rest) := strip_common start p in
  let rel_list := replicate (length start_rest) ".." ++ path_rest in
  match rel_list with
  | [] => "."
  | _ => sep_join rel_list
  end.

(* ===================================================================== *)
(** ** The file system *)
(* ===================================================================== *)

(** A regular file: its text as Python's text mode reads and writes it,
    and whether [open(.., "r")], [open(.., "w")] and [os.remove] succeed on
    it (permissions, locks, races). *)
Record file := File_ {
  text : string;
  can_read : bool;
  can_write : bool;
  can_remove : bool
}.

(** The file a successful [open(path, "w")] creates. *)
Definition new_file (content : string) : file :=
  {| text := content; can_read := true; can_write := true; can_remove := true |}.

Definition set_content (content : string) (f : file) : file :=
  {| text := content; can_read := can_read f; can_write := can_write f;
     can_remove := can_remove f |}.

(** A directory tree: a directory maps entry names to nodes. *)
Inductive node :=
  | File (f : file)
  | Dir (entries : gmap string node).

(** What [os.stat] tells apart. *)
Inductive kind :=
  | KFile (f : file)
  | KDir.

(** Path resolution from a node, with the error the system call reports. *)
Fixpoint resolve (p : path) (n : node) : exn + node :=
  match p with
  | [] => inr n
  | x :: p' =>
      match n with
      | File _ => inl NotADirectoryError
      | Dir es =>
          match es !! x with
          | None => inl FileNotFoundError
          | Some c => resolve p' c
          end
      end
  end.

Definition stat (p : path) (n : node) : option kind :=
  match resolve p n with
  | inr (File f) => Some (KFile f)
  | inr (Dir _) => Some KDir
  | inl _ => None
  end.

(** Replace ([Some c]) or unlink ([None]) the entry at [p]; nothing
    happens when the directory that holds [p] does not exist. *)
Fixpoint tree_set (p : path) (o : option node) (n : node) : node :=
  match p with
  | [] => n
  | x :: p' =>
      match n with
      | File _ => n
      | Dir es =>
          match p' with
          | [] => Dir (partial_alter (λ _, o) x es)
          | _ :: _ => Dir (alter (tree_set p' o) x es)
          end
      end
  end.

(** [os.makedirs(p, exist_ok=True)]: every missing directory on the way is
    created; a file in the way is an error. *)
Fixpoint makedirs (p : path) (n : node) : exn + node :=
  match p with
  | [] =>
      match n with
      | Dir _ => inr n
      | File _ => inl FileExistsError
      end
  | x :: p' =>
      match n with
      | File _ => inl NotADirectoryError
      | Dir es =>
          match makedirs p' (default (Dir ∅) (es !! x)) with
          | inl e => inl e
          | inr c => inr (Dir (<[x := c]> es))
          end
      end
  end.

Definition is_dir (n : node) : bool :=
  match n with Dir _ => true | File _ => false end.

(** The names of the sub-directories and of the other entries of a
    directory, as [os.scandir] lists them. *)
Definition dirnames (es : gmap string node) : list string :=
  (map_to_list (filter (λ kv, is_dir kv.2 = true) es)).*1.

Definition filenames (es : gmap string node) : list string :=
  (map_to_list (filter (λ kv, is_dir kv.2 = false) es)).*1.

(** [os.walk(top)], top-down: the triple of a directory, then the walks
    of its sub-directories. *)
Fixpoint walk_node (top : path) (n : node) : list (path * list string * list string) :=
  match n with
  | File _ => []
  | Dir es =>
      (top, dirnames es, filenames es)
        :: map_fold (λ name c acc, walk_node (top ++ [name]) c ++ acc) [] es
  end.

(* ===================================================================== *)
(** ** The process state and the monad of the script *)
(* ===================================================================== *)

(** One constructor per [print] statement of the script, with the values
    its f-string interpolates. *)
Inductive line :=
  | SameContentSkipping (filepath : path)
      (* "File '{filepath}' already exists and content is the same. Skipping." *)
  | ErrorCheckingFile (filepath : path) (e : exn)
      (* "Error checking file '{filepath}': {e}" *)
  | UpdatingOrCreating (filepath : path)
      (* "Updating or creating file '{filepath}'." *)
  | ErrorRunningNpm (e : exn)
      (* "Error running npm command: {e}" *)
  | VenvCreatedAt (venv_dir : path)
      (* "Virtual environment created at {venv_dir}" *)
  | ActivateVenvNt (activate_script : path)
      (* "Activate venv: {activate_script}" *)
  | ActivateVenvPosix (activate_script : path)
      (* "Activate venv: source {activate_script}" *)
  | DeletedUnlisted (relative_path : string)
      (* "Deleted unlisted file: {relative_path}" *)
  | ErrorDeleting (relative_path : string) (e : exn)
      (* "Error deleting file {relative_path}: {e}" *)
  | ManifestNotFound
      (* "Error: files_to_keep.json not found. Using default list." *)
  | RememberToActivate
      (* "\nRemember to activate your virtual environment and install any
         necessary dependencies." *)
  | ProjectStructureCreated (project_name : string) (root_dir : path).
      (* "\nProject structure created for '{project_name}' in {root_dir}." *)

(** The world the script acts on: the directory tree, what it has
    printed (oldest first), and the child processes it has started
    (argument vector and working directory, oldest first). *)
Record state := State {
  fs : node;
  stdout : list line;
  procs : list (list string * path)
}.

Definition set_fs (t : node) (s : state) : state :=
  {| fs := t; stdout := stdout s; procs := procs s |}.

Inductive result (A : Type) :=
  | Ok (a : A) (s : state)
  | Raise (e : exn) (s : state).
Arguments Ok {A} a s.
Arguments Raise {A} e s.

Definition state_of {A} (r : result A) : state :=
  match r with Ok _ s => s | Raise _ s => s end.

Definition raised {A} (r : result A) : option exn :=
  match r with Ok _ _ => None | Raise e _ => Some e end.

Definition M (A : Type) : Type := state → result A.

Definition ret {A} (a : A) : M A := λ s, Ok a s.

Definition bind {A B} (m : M A) (k : A → M B) : M B :=
  λ s, match m s with
       | Ok a s' => k a s'
       | Raise e s' => Raise e s'
       end.

Definition raise {A} (e : exn) : M A := λ s, Raise e s.

Declare Scope py_scope.
Delimit Scope py_scope with py.
Notation "x <- m ;; k" := (bind m (λ x, k))
  (at level 100, m at next level, right associativity) : py_scope.
Notation "m ;; k" := (bind m (λ _, k))
  (at level 100, right associativity) : py_scope.
Open Scope py_scope.

(** [try: body  except C as e: handler e], where [matches] tells whether
    an exception is an instance of [C]. *)
Definition try_except {A} (body : M A) (matches : exn → bool)
    (handler : exn → M A) : M A :=
  λ s, match body s with
       | Ok a s' => Ok a s'
       | Raise e s' => if matches e then handler e s' else Raise e s'
       end.

(** [for x in l: body x] *)
Fixpoint for_each {A} (l : list A) (body : A → M unit) : M unit :=
  match l with
  | [] => ret tt
  | x :: l' => body x ;; for_each l' body
  end.

Definition print (l : line) : M unit :=
  λ s, Ok tt {| fs := fs s; stdout := stdout s ++ [l]; procs := procs s |}.

(** [with open(filepath, "r") as f]: the text [f.read()] returns. *)
Definition open_r (filepath : path) : M string :=
  λ s, match resolve filepath (fs s) with
       | inl e => Raise e s
       | inr (Dir _) => Raise IsADirectoryError s
       | inr (File f) =>
           if can_read f then Ok (text f) s else Raise PermissionError s
       end.

(** [with open(filepath, "w") as f: f.write(text)]: truncates an existing
    file, creates a missing one in an existing directory. *)
Definition open_w (filepath : path) (content : string) : M unit :=
  λ s, match resolve filepath (fs s) with
       | inr (Dir _) => Raise IsADirectoryError s
       | inr (File f) =>
           if can_write f
           then Ok tt (set_fs (tree_set filepath (Some (File (set_content content f))) (fs s)) s)
           else Raise PermissionError s
       | inl NotADirectoryError => Raise NotADirectoryError s
       | inl _ =>
           match filepath with
           | [] => Raise FileNotFoundError s
           | _ :: _ =>
               match resolve (removelast filepath) (fs s) with
               | inr (Dir _) =>
                   Ok tt (set_fs (tree_set filepath (Some (File (new_file content))) (fs s)) s)
               | inr (File _) => Raise NotADirectoryError s
               | inl e => Raise e s
               end
           end
       end.

(** [os.remove(filepath)] *)
Definition os_remove (filepath : path) : M unit :=
  λ s, match resolve filepath (fs s) with
       | inl e => Raise e s
       | inr (Dir _) => Raise IsADirectoryError s
       | inr (File f) =>
           if can_remove f
           then Ok tt (set_fs (tree_set filepath None (fs s)) s)
           else Raise PermissionError s
       end.

(** [os.makedirs(p, exist_ok=True)] *)
Definition os_makedirs (p : path) : M unit :=
  λ s, match makedirs p (fs s) with
       | inl e => Raise e s
       | inr t => Ok tt (set_fs t s)
       end.

(** [os.walk(top)]: the triples [(dirpath, dirnames, filenames)].  The
    generator is taken as a snapshot: the loop of the pruner removes only
    files of the directory it has just been handed, so the directories
    listed later are listed as they were. Errors of the scan are ignored
    ([onerror=None]): a missing [top], or a file, yields nothing. *)
Definition os_walk (top : path) : M (list (path * list string * list string)) :=
  λ s, match resolve top (fs s) with
       | inr n => Ok (walk_node top n) s
       | inl _ => Ok [] s
       end.

(* ===================================================================== *)
(** ** The script *)
(* ===================================================================== *)

(** How a [try] block of [create_file] ends: by its [return], or by
    falling through to the statements after it. *)
Inductive flow :=
  | Returned
  | FellThrough.

Section Scaffolder.

(** [hashlib.sha256(text.encode()).hexdigest()] *)
Variable sha256_hexdigest : string → string.

(** [venv.create(venv_dir, with_pip=True)]: what it does to the tree,
    or the exception it raises. *)
Variable venv_create : path → node → exn + node.

(** [json.load(f)] on the text of the manifest: the list of path
    strings of a JSON array, or [None] for text that is not JSON.  A
    manifest that holds some other JSON value is outside the model. *)
Variable json_load : string → option (list string).

(** The child process of [subprocess.run(args, cwd=..)]: the error of
    starting it, or its exit status and what it did to the tree. *)
Variable child : list string → path → node → exn + (Z * node).

(** [os.getcwd()] and [os.name] *)
Variable getcwd : path.
Variable os_name : string.

(** [subprocess.run(args, check=True, cwd=cwd)]: waits for the child;
    a non-zero exit status raises [CalledProcessError]. *)
Definition subprocess_run_check (args : list string) (cwd : path) : M unit :=
  λ s, let s1 := {| fs := fs s; stdout := stdout s; procs := procs s ++ [(args, cwd)] |} in
       match child args cwd (fs s) with
       | inl e => Raise e s1
       | inr (returncode, t) =>
           if decide (returncode = 0%Z) then Ok tt (set_fs t s1)
           else Raise (CalledProcessError returncode) (set_fs t s1)
       end.

Definition venv_create_at (venv_dir : path) : M unit :=
  λ s, match venv_create venv_dir (fs s) with
       | inl e => Raise e s
       | inr t => Ok tt (set_fs t s)
       end.

(** Lines 7-23. *)
Definition create_file (filepath : path) (content : string) (overwrite : bool) : M unit :=
  r <- try_except
         (existing_content <- open_r filepath ;;
          if overwrite then
            let existing_hash := sha256_hexdigest existing_content in
            let new_hash := sha256_hexdigest content in
            if decide (existing_hash = new_hash) then
              print (SameContentSkipping filepath) ;;
              ret Returned
            else ret FellThrough
          else ret FellThrough)
         is_Exception
         (λ e, print (ErrorCheckingFile filepath e) ;; ret Returned) ;;
  match r with
  | Returned => ret tt
  | FellThrough =>
      print (UpdatingOrCreating filepath) ;;
      open_w filepath content
  end.

(** Lines 25-30. *)
Definition run_npm_command (project_path : path) (command : string) : M unit :=
  try_except
    (subprocess_run_check ["npm"; command] project_path)
    is_CalledProcessError
    (λ e, print (ErrorRunningNpm e)).

(** Lines 32-44. *)
Definition create_and_activate_venv (project_path : path) : M unit :=
  let venv_dir := os_path_join project_path "venv" in
  venv_create_at venv_dir ;;
  print (VenvCreatedAt venv_dir) ;;
  if decide (os_name = "nt") then
    let activate_script := os_path_join (os_path_join venv_dir "Scripts") "activate" in
    print (ActivateVenvNt activate_script)
  else
    let activate_script := os_path_join (os_path_join venv_dir "bin") "activate" in
    print (ActivateVenvPosix activate_script).

(** Lines 46-48. *)
Definition create_directories (root_dir : path) (folders : list string) : M unit :=
  for_each folders (λ folder, os_makedirs (os_path_join root_dir folder)).

(** Lines 50-52; [files.items()] in insertion order. *)
Definition create_files (root_dir : path) (files : list (string * string))
    (overwrite : bool) : M unit :=
  for_each files (λ '(filepath, content),
    create_file (os_path_join root_dir filepath) content overwrite).

(** Lines 54-64.  [file] is the name of a directory entry, so
    [os.path.join(root, file)] adds it as one component. *)
Definition delete_unlisted_files (root_dir : path) (allowed_files : list string) : M unit :=
  triples <- os_walk root_dir ;;
  for_each triples (λ '(root, _, files),
    for_each files (λ file,
      let filepath := root ++ [file] in
      let relative_path := os_path_relpath filepath root_dir in
      if decide (relative_path ∉ allowed_files) then
        try_except
          (os_remove filepath ;;
           print (DeletedUnlisted relative_path))
          is_OSError
          (λ e, print (ErrorDeleting relative_path e))
      else ret tt)).

(** Line 71. *)
Definition folders : list string :=
  ["data/raw"; "data/processed"; "notebooks"; "scripts"; "config"].

(** Lines 74-77. *)
Definition files : list (string * string) :=
  [("README.md", "# Project Title

Project description goes here.");
   ("config/config.yaml", "gemini:
  api_url: 'https://api.gemini.com/v2/campaigns'
  access_token: 'YOUR_ACCESS_TOKEN'")].

(** Lines 81-84. *)
Definition groups : list (string * list string) :=
  [("notebooks", ["data_analysis.ipynb"]);
   ("scripts", ["fetch_data.py"; "process_data.py"])].

(** Lines 94-100. *)
Definition default_files_to_keep : list string :=
  ["README.md";
   "config/config.yaml";
   "notebooks/data_analysis.ipynb";
   "scripts/fetch_data.py";
   "scripts/process_data.py"].

(** Lines 69-87 of [create_project_structure]: the environment, the
    folders and the template files. *)
Definition write_templates (root_dir : path) (overwrite : bool) : M unit :=
  create_and_activate_venv root_dir ;;
  create_directories root_dir folders ;;
  create_files root_dir files overwrite ;;
  for_each groups (λ '(group, filenames),
    for_each filenames (λ filename,
      let filepath := os_path_join (os_path_join root_dir group) filename in
      create_file filepath ("# " +:+ filename +:+ " - Logic here") overwrite)).

(** Lines 89-100 of [create_project_structure]: the allow-list. *)
Definition load_files_to_keep : M (list string) :=
  try_except
    (manifest <- open_r (os_path_join getcwd "files_to_keep.json") ;;
     match json_load manifest with
     | Some files_to_keep => ret files_to_keep
     | None => raise JSONDecodeError
     end)
    is_FileNotFoundError
    (λ _, print ManifestNotFound ;;
          ret default_files_to_keep).

(** Lines 66-107. *)
Definition create_project_structure (project_name : string)
    (overwrite install_deps : bool) : M unit :=
  let root_dir := os_path_join getcwd project_name in
  write_templates root_dir overwrite ;;
  files_to_keep <- load_files_to_keep ;;
  delete_unlisted_files root_dir files_to_keep ;;
  (if install_deps then print RememberToActivate else ret tt) ;;
  print (ProjectStructureCreated project_name root_dir).

End Scaffolder.

(* ===================================================================== *)
(** ** The pruner, file by file *)
(* ===================================================================== *)

(** The file paths the two nested loops of [delete_unlisted_files] visit,
    in order. *)
Definition walk_files (triples : list (path * list string * list string)) : list path :=
  flat_map (λ '(root, _, files), map (λ file, root ++ [file]) files) triples.

(** The body of the inner loop of [delete_unlisted_files] (lines 57-64)
    for one visited file. *)
Definition prune_file (root_dir : path) (allowed_files : list string)
    (filepath : path) : M unit :=
  let relative_path := os_path_relpath filepath root_dir in
  if decide (relative_path ∉ allowed_files) then
    try_except
      (os_remove filepath ;;
       print (DeletedUnlisted relative_path))
      is_OSError
      (λ e, print (ErrorDeleting relative_path e))
  else ret tt.

(** What one pass of the loop body does. *)
Inductive prune_step (root_dir : path) (allowed_files : list string)
    (filepath : path) (s s' : state) : Prop :=
  | prune_keep :
      os_path_relpath filepath root_dir ∈ allowed_files →
      s' = s →
      prune_step root_dir allowed_files filepath s s'
  | prune_delete (f : file) :
      os_path_relpath filepath root_dir ∉ allowed_files →
      resolve filepath (fs s) = inr (File f) →
      can_remove f = true →
      fs s' = tree_set filepath None (fs s) →
      stdout s' = stdout s ++ [DeletedUnlisted (os_path_relpath filepath root_dir)] →
      procs s' = procs s →
      prune_step root_dir allowed_files filepath s s'
  | prune_error (e : exn) :
      os_path_relpath filepath root_dir ∉ allowed_files →
      (∀ f, resolve filepath (fs s) = inr (File f) →
            can_remove f = false ∧ e = PermissionError) →
      fs s' = fs s →
      stdout s' = stdout s ++ [ErrorDeleting (os_path_relpath filepath root_dir) e] →
      procs s' = procs s →
      prune_step root_dir allowed_files filepath s s'.

(** What [stat] reports at [q] once the loop has visited the files [L],
    given what it reported before: a file goes away exactly if it was
    visited, is not on the allow-list and its removal succeeds. *)
Definition pruned_stat (root_dir : path) (allowed_files : list string)
    (L : list path) (q : path) (before : option kind) : option kind :=
  match before with
  | Some (KFile f) =>
      if decide (q ∈ L ∧ (os_path_relpath q root_dir ∉ allowed_files) ∧ can_remove f = true)
      then None
      else before
  | _ => before
  end.

(** A computation that starts no child process. *)
Definition starts_no_process {A} (m : M A) : Prop :=
  ∀ s, procs (state_of (m s)) = procs s.

(* ===================================================================== *)
(** ** Concrete worlds for running the script *)
(* ===================================================================== *)

(** Stand-ins for the library calls, used where the script is run on a
    concrete tree.  A digest without collisions: the text itself. *)
Definition plain_digest (content : string) : string := content.

(** An environment of one directory and two files. *)
Definition small_venv_create (venv_dir : path) (t : node) : exn + node :=
  match makedirs (venv_dir ++ ["bin"]) t with
  | inl e => inl e
  | inr t1 =>
      inr (tree_set (venv_dir ++ ["bin"; "activate"])
             (Some (File (new_file "# activate")))
             (tree_set (venv_dir ++ ["pyvenv.cfg"])
                (Some (File (new_file "home = /usr/bin"))) t1))
  end.

(** A parser that knows the empty array and nothing else. *)
Definition empty_array_json_load (manifest : string) : option (list string) :=
  if decide (manifest = "[]") then Some [] else None.

(** [npm] exits with status 1 and leaves the tree alone. *)
Definition failing_npm (args : list string) (cwd : path) (t : node) : exn + (Z * node) :=
  inr (1%Z, t).

Definition home : path := ["home"; "user"].

Definition world (t : node) : state := {| fs := t; stdout := []; procs := [] |}.

(** An empty working directory: a first run. *)
Definition fresh_tree : node :=
  Dir {[ "home" := Dir {[ "user" := Dir ∅ ]} ]}.

(** A working directory whose manifest is not JSON. *)
Definition broken_manifest_tree : node :=
  Dir {[ "home" := Dir {[ "user" :=
    Dir {[ "files_to_keep.json" := File (new_file "README.md, config") ]} ]} ]}.

(** A project that has been worked on: a README of the user's own, a
    script that is on no list, an old environment, an empty data folder. *)
Definition myapp_tree : node :=
  Dir {[ "README.md" := File (new_file "my notes");
         "config" := Dir {[ "config.yaml" := File (new_file "gemini: {}") ]};
         "scripts" := Dir {[ "old.py" := File (new_file "print(1)") ]};
         "venv" := Dir {[ "pyvenv.cfg" := File (new_file "home = /usr/bin") ]};
         "data" := Dir {[ "raw" := Dir ∅ ]} ]}.

Definition used_tree : node :=
  Dir {[ "home" := Dir {[ "user" := Dir {[ "myapp" := myapp_tree ]} ]} ]}.

(** Whether every file of a tree satisfies [P]. *)
Fixpoint all_files (P : file → bool) (n : node) : bool :=
  match n with
  | File f => P f
  | Dir es => map_fold (λ _ c acc, all_files P c && acc) true es
  end.

(* ===================================================================== *)
(** ** Notions for what the script keeps *)
(* ===================================================================== *)

(** The depth of the tree below a node. *)
Fixpoint height (n : node) : nat :=
  match n with
  | File _ => 0
  | Dir es => S (map_fold (λ _ c acc, height c `max` acc) 0 es)
  end.

(** A relation that holds between the state in which a computation
    starts and the state in which it ends, normally or by an exception. *)
Definition preserves {A} (R : state → state → Prop) (m : M A) : Prop :=
  ∀ s, R s (state_of (m s)).

(** The same paths are regular files in both states. *)
Definition same_files (s s' : state) : Prop :=
  ∀ q, (∃ f, stat q (fs s) = Some (KFile f)) ↔ (∃ f, stat q (fs s') = Some (KFile f)).

(** What exists stays, and no regular file is new. *)
Definition only_new_dirs (s s' : state) : Prop :=
  (∀ q k, stat q (fs s) = Some k → stat q (fs s') = Some k) ∧
  (∀ q f, stat q (fs s') = Some (KFile f) → stat q (fs s) = Some (KFile f)).


(** The paths of the five template files, as lines 52 and 86 build them
    from the tables of lines 74-77 and 81-84. *)
Definition template_paths (root_dir : path) : list path :=
  ((λ '(filepath, _), os_path_join root_dir filepath) <$> files) ++
  flat_map (λ '(group, filenames),
              (λ filename, os_path_join (os_path_join root_dir group) filename)
                <$> filenames) groups.

(** [c.lower()] for an ASCII character: the capital letters move to the
    small ones, everything else stays. *)
Definition ascii_lower (c : ascii) : ascii :=
  let n := nat_of_ascii c in
  if Nat.leb 65 n && Nat.leb n 90 then ascii_of_nat (n + 32) else c.

(** [typed.lower()] on ASCII text. *)
Fixpoint str_lower (typed : string) : string :=
  match typed with
  | EmptyString => EmptyString
  | String c rest => String (ascii_lower c) (str_lower rest)
  end.

(** Lines 111 and 112: [input(..).lower() == "y"], for the line typed at
    the prompt. *)
Definition answered_yes (typed : string) : bool :=
  bool_decide (str_lower typed = "y").


(** The project that has been worked on, beside a manifest that holds the
    empty array. *)
Definition empty_manifest_tree : node :=
  Dir {[ "home" := Dir {[ "user" :=
    Dir {[ "myapp" := myapp_tree;
           "files_to_keep.json" := File (new_file "[]") ]} ]} ]}.

(** A README that may be read but not written. *)
Definition read_only_tree : node :=
  Dir {[ "home" := Dir {[ "user" := Dir {[ "myapp" :=
    Dir {[ "README.md" := File {| text := "my notes"; can_read := true;
                                  can_write := false; can_remove := true |};
           "secret" := File {| text := "x"; can_read := false;
                               can_write := true; can_remove := true |} ]} ]} ]} ]}.

(** [npm] is not installed. *)
Definition missing_npm (args : list string) (cwd : path) (t : node) : exn + (Z * node) :=
  inl FileNotFoundError.

(* ===================================================================== *)
(** ** Facts about paths and trees *)
(* ===================================================================== *)

Lemma strip_common_app (root rel : path) :
  strip_common root (root ++ rel) = ([], rel).
Proof.
  induction root as [|x root IH]; simpl.
  - by destruct rel.
  - by rewrite decide_True.
Qed.

(** The path of a file below [root], relative to [root], is its
    components joined by the separator. *)
Lemma relpath_under (root rel : path) :
  rel ≠ [] → os_path_relpath (root ++ rel) root = sep_join rel.
Proof.
  intros Hrel. unfold os_path_relpath. rewrite strip_common_app. simpl.
  by destruct rel.
Qed.

Lemma resolve_app (p q : path) (n : node) :
  resolve (p ++ q) n =
    match resolve p n with
    | inr m => resolve q m
    | inl e => inl e
    end.
Proof.
  revert n. induction p as [|x p IH]; intros n; simpl; [done|].
  destruct n as [f|es]; [done|].
  destruct (es !! x); [apply IH|done].
Qed.

Lemma resolve_file_below (q : path) (f : file) :
  q ≠ [] → resolve q (File f) = inl NotADirectoryError.
Proof. by destruct q. Qed.

Lemma stat_below_not_dir (q : path) (o : option node) :
  q ≠ [] →
  (∀ es, o ≠ Some (Dir es)) →
  match o with
  | Some c => stat q c
  | None => None
  end = None.
Proof.
  intros Hq Ho. destruct o as [[f|es]|]; [|by destruct (Ho es)|done].
  unfold stat. by rewrite resolve_file_below.
Qed.

Lemma stat_cons (x : string) (q : path) (es : gmap string node) :
  stat (x :: q) (Dir es) =
    match es !! x with
    | Some c => stat q c
    | None => None
    end.
Proof. unfold stat. simpl. by destruct (es !! x). Qed.

(** Writing or unlinking a file at [p] changes what [stat] reports at no
    other path. *)
Lemma stat_tree_set_other (p : path) (o : option node) :
  (∀ es, o ≠ Some (Dir es)) →
  ∀ (n : node) (q : path),
    (∀ es, resolve p n ≠ inr (Dir es)) →
    q ≠ p →
    stat q (tree_set p o n) = stat q n.
Proof.
  intros Ho. induction p as [|x p IH]; intros n q Hp Hq; simpl; [done|].
  destruct n as [f|es]; [done|].
  destruct q as [|y q]; [by destruct p|].
  simpl in Hp.
  destruct p as [|x' p].
  - rewrite !stat_cons. destruct (decide (y = x)) as [->|Hy].
    + rewrite lookup_partial_alter_eq.
      assert (q ≠ []) as Hq' by congruence.
      rewrite (stat_below_not_dir q o Hq' Ho).
      symmetry. apply (stat_below_not_dir q (es !! x) Hq').
      intros es' Hes. rewrite Hes in Hp. by destruct (Hp es').
    + by rewrite lookup_partial_alter_ne.
  - rewrite !stat_cons. destruct (decide (y = x)) as [->|Hy].
    + rewrite lookup_alter_eq. destruct (es !! x) as [c|] eqn:Hc; simpl; [|done].
      apply IH; [done|congruence].
    + by rewrite lookup_alter_ne.
Qed.

(** The entry at [p] after replacing or unlinking the file there. *)
Lemma resolve_tree_set_eq (p : path) (o : option node) :
  ∀ (n : node) (f : file),
    resolve p n = inr (File f) →
    p ≠ [] →
    resolve p (tree_set p o n) =
      match o with
      | Some c => inr c
      | None => inl FileNotFoundError
      end.
Proof.
  induction p as [|x p IH]; intros n f Hp Hne; [done|].
  simpl in *. destruct n as [f'|es]; [done|].
  destruct (es !! x) as [c|] eqn:Hc; [|done].
  destruct p as [|x' p].
  - simpl. rewrite lookup_partial_alter_eq. by destruct o.
  - cbn [resolve]. rewrite lookup_alter_eq, Hc. simpl.
    by apply (IH c f).
Qed.

Lemma stat_unlink_eq (p : path) (n : node) (f : file) :
  resolve p n = inr (File f) → p ≠ [] → stat p (tree_set p None n) = None.
Proof.
  intros Hp Hne. unfold stat. by rewrite (resolve_tree_set_eq p None n f).
Qed.


(* ===================================================================== *)
(** ** Facts about [os.walk] *)
(* ===================================================================== *)

Lemma elem_of_filenames (es : gmap string node) (name : string) :
  name ∈ filenames es ↔ ∃ f, es !! name = Some (File f).
Proof.
  unfold filenames. rewrite list_elem_of_fmap. split.
  - intros [[k c] [-> Hin]]. apply elem_of_map_to_list in Hin.
    apply map_lookup_filter_Some in Hin as [Hc Hd]. simpl in *.
    destruct c as [f|?]; [by exists f|done].
  - intros [f Hf]. exists (name, File f). split; [done|].
    apply elem_of_map_to_list. by apply map_lookup_filter_Some.
Qed.

Lemma elem_of_dirnames (es : gmap string node) (name : string) :
  name ∈ dirnames es ↔ ∃ sub, es !! name = Some (Dir sub).
Proof.
  unfold dirnames. rewrite list_elem_of_fmap. split.
  - intros [[k c] [-> Hin]]. apply elem_of_map_to_list in Hin.
    apply map_lookup_filter_Some in Hin as [Hc Hd]. simpl in *.
    destruct c as [?|sub]; [done|by exists sub].
  - intros [sub Hsub]. exists (name, Dir sub). split; [done|].
    apply elem_of_map_to_list. by apply map_lookup_filter_Some.
Qed.

(** The walk of a directory holds the walk of each of its entries. *)
Lemma walk_node_sub (top : path) (es : gmap string node) (name : string) (c : node) t :
  es !! name = Some c →
  t ∈ walk_node (top ++ [name]) c →
  t ∈ walk_node top (Dir es).
Proof.
  intros Hc Ht. cbn [walk_node]. apply list_elem_of_further.
  rewrite map_fold_foldr.
  apply elem_of_map_to_list in Hc.
  induction (map_to_list es) as [|[k d] l IH]; [by apply elem_of_nil in Hc|].
  simpl. apply elem_of_app.
  apply elem_of_cons in Hc as [Heq|Hin].
  - injection Heq as <- <-. by left.
  - right. by apply IH.
Qed.

(** Every file below [top] is handed to the loop body: [os.walk] lists it
    among the file names of the directory that holds it. *)
Lemma walk_node_complete (d : path) :
  ∀ (top : path) (n : node) (name : string) (f : file),
    resolve (d ++ [name]) n = inr (File f) →
    ∃ dirs names, (top ++ d, dirs, names) ∈ walk_node top n ∧ name ∈ names.
Proof.
  induction d as [|x d IH]; intros top n name f Hres.
  - simpl in Hres. destruct n as [?|es]; [done|].
    destruct (es !! name) as [c|] eqn:Hc; [|done].
    injection Hres as ->.
    exists (dirnames es), (filenames es). rewrite app_nil_r. split.
    + cbn [walk_node]. apply list_elem_of_here.
    + apply elem_of_filenames. by exists f.
  - simpl in Hres. destruct n as [?|es]; [done|].
    destruct (es !! x) as [c|] eqn:Hc; [|done].
    destruct (IH (top ++ [x]) c name f Hres) as (dirs & names & Hin & Hname).
    exists dirs, names. split; [|done].
    apply (walk_node_sub top es x c); [done|].
    by rewrite <- app_assoc in Hin.
Qed.

Lemma elem_of_walk_files (root : path) (dirs names : list string) (name : string) triples :
  (root, dirs, names) ∈ triples →
  name ∈ names →
  root ++ [name] ∈ walk_files triples.
Proof.
  intros Hin Hname. unfold walk_files. apply list_elem_of_In, in_flat_map.
  exists (root, dirs, names). split; [by apply list_elem_of_In|].
  apply list_elem_of_In, list_elem_of_fmap. by exists name.
Qed.

Lemma walk_files_complete (top rel : path) (n : node) (f : file) :
  rel ≠ [] →
  resolve rel n = inr (File f) →
  top ++ rel ∈ walk_files (walk_node top n).
Proof.
  intros Hrel Hres.
  destruct (exists_last Hrel) as (d & name & ->).
  destruct (walk_node_complete d top n name f Hres) as (dirs & names & Hin & Hname).
  rewrite app_assoc. by apply (elem_of_walk_files _ dirs names).
Qed.

Lemma walk_files_nonempty triples : Forall (λ p : path, p ≠ []) (walk_files triples).
Proof.
  apply Forall_forall. intros p Hp. unfold walk_files in Hp.
  apply list_elem_of_In, in_flat_map in Hp as ([[root dirs] names] & _ & Hp).
  apply list_elem_of_In, list_elem_of_fmap in Hp as (name & -> & _).
  by destruct root.
Qed.

(* ===================================================================== *)
(** ** Facts about the pruner *)
(* ===================================================================== *)

Lemma bind_unfold {A B} (m : M A) (k : A → M B) (s : state) :
  bind m k s =
    match m s with
    | Ok a s' => k a s'
    | Raise e s' => Raise e s'
    end.
Proof. done. Qed.

(** Path resolution fails with an [OSError] only. *)
Lemma resolve_error (p : path) (n : node) (e : exn) :
  resolve p n = inl e → is_OSError e = true.
Proof.
  revert n. induction p as [|x p IH]; intros n He; simpl in He; [done|].
  destruct n as [?|es]; [by injection He as <-|].
  destruct (es !! x) as [c|]; [by eapply IH|by injection He as <-].
Qed.

Lemma for_each_app {A} (l1 l2 : list A) (body : A → M unit) (s : state) :
  for_each (l1 ++ l2) body s = (for_each l1 body ;; for_each l2 body) s.
Proof.
  revert s. induction l1 as [|x l1 IH]; intros s; [done|].
  cbn [for_each app]. rewrite !bind_unfold.
  destruct (body x s) as [[] s1|e s1]; [|done].
  by rewrite IH, bind_unfold.
Qed.

Lemma for_each_fmap {A B} (g : A → B) (l : list A) (body : B → M unit) (s : state) :
  for_each (g <$> l) body s = for_each l (λ x, body (g x)) s.
Proof.
  revert s. induction l as [|x l IH]; intros s; [done|].
  cbn [for_each fmap list_fmap]. rewrite !bind_unfold.
  destruct (body (g x) s) as [[] s1|e s1]; [apply IH|done].
Qed.

(** The two nested loops visit the files of [walk_files] one by one. *)
Lemma nested_loops_flat (root_dir : path) (allowed_files : list string) triples :
  ∀ s : state,
    for_each triples (λ '(root, _, files),
      for_each files (λ file,
        let filepath := root ++ [file] in
        let relative_path := os_path_relpath filepath root_dir in
        if decide (relative_path ∉ allowed_files) then
          try_except
            (os_remove filepath ;;
             print (DeletedUnlisted relative_path))
            is_OSError
            (λ e, print (ErrorDeleting relative_path e))
        else ret tt)) s
    = for_each (walk_files triples) (prune_file root_dir allowed_files) s.
Proof.
  induction triples as [|[[root dirs] names] triples IH]; intros s; [done|].
  cbn [for_each walk_files flat_map]. rewrite for_each_app, !bind_unfold.
  change (map (λ file : string, root ++ [file]) names)
    with ((λ file : string, root ++ [file]) <$> names).
  rewrite for_each_fmap.
  match goal with |- match ?a with _ => _ end = match ?b with _ => _ end =>
    change b with a; destruct a as [[] s1|e s1] end; [apply IH|done].
Qed.

Lemma delete_unlisted_files_flat (root_dir : path) (allowed_files : list string) (s : state) :
  delete_unlisted_files root_dir allowed_files s =
    match resolve root_dir (fs s) with
    | inr n => for_each (walk_files (walk_node root_dir n))
                 (prune_file root_dir allowed_files) s
    | inl _ => Ok tt s
    end.
Proof.
  unfold delete_unlisted_files. rewrite bind_unfold. unfold os_walk.
  destruct (resolve root_dir (fs s)) as [e|n]; [done|].
  apply nested_loops_flat.
Qed.

Lemma prune_file_step (root_dir : path) (allowed_files : list string)
    (filepath : path) (s : state) :
  ∃ s', prune_file root_dir allowed_files filepath s = Ok tt s' ∧
        prune_step root_dir allowed_files filepath s s'.
Proof.
  unfold prune_file.
  destruct (decide (os_path_relpath filepath root_dir ∉ allowed_files)) as [Hout|Hin].
  - unfold try_except. rewrite bind_unfold. unfold os_remove.
    destruct (resolve filepath (fs s)) as [e|[f|es]] eqn:Hres.
    + rewrite (resolve_error _ _ _ Hres).
      eexists; split; [reflexivity|].
      eapply prune_error; [done| |done..]. congruence.
    + destruct (can_remove f) eqn:Hrm.
      * eexists; split; [reflexivity|]. by eapply (prune_delete _ _ _ _ _ f).
      * eexists; split; [reflexivity|].
        eapply prune_error; [done| |done..].
        intros f' Hf'. rewrite Hres in Hf'. by injection Hf' as <-.
    + eexists; split; [reflexivity|].
      eapply prune_error; [done| |done..]. congruence.
  - exists s. split; [done|]. apply prune_keep; [|done].
    by apply dec_stable.
Qed.

Lemma prune_step_stat (root_dir : path) (allowed_files : list string)
    (p : path) (s s' : state) :
  p ≠ [] →
  prune_step root_dir allowed_files p s s' →
  ∀ q, stat q (fs s') = pruned_stat root_dir allowed_files [p] q (stat q (fs s)).
Proof.
  intros Hp Hstep q. unfold pruned_stat.
  destruct Hstep as [Hin ->|f Hout Hres Hrm Hfs _ _|e Hout Hres Hfs _ _].
  - destruct (stat q (fs s)) as [[f|]|]; [|done..].
    rewrite decide_False; [done|].
    intros (->%list_elem_of_singleton & Hout & _). by apply Hout.
  - rewrite Hfs. destruct (decide (q = p)) as [->|Hq].
    + rewrite (stat_unlink_eq p _ f Hres Hp).
      unfold stat. rewrite Hres. rewrite decide_True; [done|].
      split; [by apply list_elem_of_singleton|done].
    + rewrite (stat_tree_set_other p None); [|done| |done].
      * destruct (stat q (fs s)) as [[f'|]|]; [|done..].
        rewrite decide_False; [done|].
        by intros (?%list_elem_of_singleton & _).
      * intros es. by rewrite Hres.
  - rewrite Hfs. unfold stat.
    destruct (resolve q (fs s)) as [e'|[f|es]] eqn:Hq; [done| |done].
    rewrite decide_False; [done|].
    intros (->%list_elem_of_singleton & _ & Hrm).
    destruct (Hres f Hq) as [Hno _]. congruence.
Qed.

Lemma pruned_stat_cons (root_dir : path) (allowed_files : list string)
    (p : path) (L : list path) (q : path) (before : option kind) :
  pruned_stat root_dir allowed_files L q
    (pruned_stat root_dir allowed_files [p] q before)
  = pruned_stat root_dir allowed_files (p :: L) q before.
Proof.
  unfold pruned_stat. destruct before as [[f|]|]; [|done..].
  destruct (decide (q ∈ [p] ∧ (os_path_relpath q root_dir ∉ allowed_files)
                    ∧ can_remove f = true)) as [(Hp & Hout & Hrm)|Hnp].
  - rewrite decide_True; [done|].
    apply list_elem_of_singleton in Hp as ->.
    split; [apply list_elem_of_here|done].
  - destruct (decide (q ∈ L ∧ (os_path_relpath q root_dir ∉ allowed_files)
                      ∧ can_remove f = true)) as [(HL & Hout & Hrm)|HnL].
    + rewrite decide_True; [done|]. split; [by apply list_elem_of_further|done].
    + rewrite decide_False; [done|].
      intros ([->|HL]%elem_of_cons & Hout & Hrm).
      * apply Hnp. split; [by apply list_elem_of_singleton|done].
      * by apply HnL.
Qed.

(** The loop over the visited files never raises; it starts no process,
    only adds to what was printed, and removes exactly the visited files
    that are not on the allow-list and whose removal succeeds. *)
Lemma prune_loop_spec (root_dir : path) (allowed_files : list string) (L : list path) :
  Forall (λ p : path, p ≠ []) L →
  ∀ s : state, ∃ s' : state,
    for_each L (prune_file root_dir allowed_files) s = Ok tt s' ∧
    procs s' = procs s ∧
    (∃ extra, stdout s' = stdout s ++ extra) ∧
    ∀ q, stat q (fs s') = pruned_stat root_dir allowed_files L q (stat q (fs s)).
Proof.
  induction 1 as [|p L Hp HL IH]; intros s.
  - exists s. repeat split; [by exists []; rewrite app_nil_r|].
    intros q. unfold pruned_stat. destruct (stat q (fs s)) as [[f|]|]; [|done..].
    rewrite decide_False; [done|]. by intros (?%elem_of_nil & _).
  - destruct (prune_file_step root_dir allowed_files p s) as (s1 & Hrun & Hstep).
    destruct (IH s1) as (s' & Hrest & Hprocs & (extra & Hout) & Hstat).
    exists s'. cbn [for_each]. rewrite bind_unfold, Hrun.
    split; [done|]. split; [|split].
    + rewrite Hprocs. by destruct Hstep as [? ->|? ? ? ? ? ? ->|? ? ? ? ? ->].
    + destruct Hstep as [? ->|? ? ? ? ? Hs1 ?|? ? ? ? Hs1 ?].
      * by exists extra.
      * eexists. by rewrite Hout, Hs1, <- app_assoc.
      * eexists. by rewrite Hout, Hs1, <- app_assoc.
    + intros q. rewrite Hstat, (prune_step_stat _ _ p s s1 Hp Hstep q).
      apply pruned_stat_cons.
Qed.

Lemma stat_file_iff (p : path) (n : node) (f : file) :
  stat p n = Some (KFile f) ↔ resolve p n = inr (File f).
Proof.
  unfold stat. destruct (resolve p n) as [e|[f'|es]]; split; congruence.
Qed.

Lemma stat_dir_iff (p : path) (n : node) :
  stat p n = Some KDir ↔ ∃ es, resolve p n = inr (Dir es).
Proof.
  unfold stat. destruct (resolve p n) as [e|[f'|es]]; split;
    try congruence; try (by intros [? ?]); by exists es.
Qed.

(** A file whose removal fails is reported once the loop has visited it. *)
Lemma prune_loop_reports (root_dir : path) (allowed_files : list string) (L : list path) :
  Forall (λ p : path, p ≠ []) L →
  ∀ (s s' : state) (p : path) (f : file),
    for_each L (prune_file root_dir allowed_files) s = Ok tt s' →
    p ∈ L →
    stat p (fs s) = Some (KFile f) →
    can_remove f = false →
    os_path_relpath p root_dir ∉ allowed_files →
    ErrorDeleting (os_path_relpath p root_dir) PermissionError ∈ stdout s'.
Proof.
  induction 1 as [|p0 L Hp0 HL IH]; intros s s' p f Hrun Hin Hstat Hrm Hout.
  - by apply elem_of_nil in Hin.
  - cbn [for_each] in Hrun. rewrite bind_unfold in Hrun.
    destruct (prune_file_step root_dir allowed_files p0 s) as (s1 & Hrun1 & Hstep).
    rewrite Hrun1 in Hrun.
    destruct (prune_loop_spec root_dir allowed_files L HL s1)
      as (s2 & Hrun2 & _ & (extra & Hextra) & _).
    rewrite Hrun in Hrun2. injection Hrun2 as <-.
    destruct (decide (p = p0)) as [->|Hne].
    + apply stat_file_iff in Hstat.
      destruct Hstep as [Hkeep _|f' _ Hres Hrm' _ _ _|e _ Hres _ Hs1 _].
      * by destruct Hout.
      * rewrite Hstat in Hres. injection Hres as <-. congruence.
      * destruct (Hres f Hstat) as [_ ->].
        rewrite Hextra, Hs1. apply elem_of_app. left.
        apply elem_of_app. right. apply list_elem_of_here.
    + apply elem_of_cons in Hin as [?|Hin]; [done|].
      apply (IH s1 s' p f); try done.
      rewrite (prune_step_stat _ _ p0 s s1 Hp0 Hstep p), Hstat.
      unfold pruned_stat. rewrite decide_False; [done|].
      intros (_ & _ & ?). congruence.
Qed.

(** The pruner as a whole: it never raises, and its effect on the tree is
    that of the loop over a list of files that holds every file below
    the root. *)
Lemma delete_unlisted_files_spec (root_dir : path) (allowed_files : list string) (s : state) :
  ∃ (s' : state) (L : list path),
    delete_unlisted_files root_dir allowed_files s = Ok tt s' ∧
    for_each L (prune_file root_dir allowed_files) s = Ok tt s' ∧
    Forall (λ p : path, p ≠ []) L ∧
    procs s' = procs s ∧
    (∃ extra, stdout s' = stdout s ++ extra) ∧
    (∀ rel f, rel ≠ [] → stat (root_dir ++ rel) (fs s) = Some (KFile f) →
              root_dir ++ rel ∈ L) ∧
    (∀ q, stat q (fs s') = pruned_stat root_dir allowed_files L q (stat q (fs s))).
Proof.
  rewrite delete_unlisted_files_flat.
  destruct (resolve root_dir (fs s)) as [e|n] eqn:Hroot.
  - exists s, []. repeat split; [done|by exists []; rewrite app_nil_r| |].
    + intros rel f _ Hstat. apply stat_file_iff in Hstat.
      by rewrite resolve_app, Hroot in Hstat.
    + intros q. unfold pruned_stat. destruct (stat q (fs s)) as [[f|]|]; [|done..].
      rewrite decide_False; [done|]. by intros (?%elem_of_nil & _).
  - pose proof (walk_files_nonempty (walk_node root_dir n)) as Hne.
    destruct (prune_loop_spec root_dir allowed_files _ Hne s)
      as (s' & Hrun & Hprocs & Hout & Hstat).
    exists s', (walk_files (walk_node root_dir n)).
    repeat split; try done.
    intros rel f Hrel Hf. apply stat_file_iff in Hf.
    rewrite resolve_app, Hroot in Hf.
    by apply (walk_files_complete root_dir rel n f).
Qed.

(** A file below the root that is not on the allow-list and whose removal
    succeeds is gone after the pruner. *)
Lemma delete_unlisted_files_removes (root_dir : path) (allowed_files : list string)
    (s s' : state) (rel : path) (f : file) :
  delete_unlisted_files root_dir allowed_files s = Ok tt s' →
  rel ≠ [] →
  stat (root_dir ++ rel) (fs s) = Some (KFile f) →
  os_path_relpath (root_dir ++ rel) root_dir ∉ allowed_files →
  can_remove f = true →
  stat (root_dir ++ rel) (fs s') = None.
Proof.
  intros Hrun Hrel Hbefore Hout Hrm.
  destruct (delete_unlisted_files_spec root_dir allowed_files s)
    as (s2 & L & Hrun2 & _ & _ & _ & _ & Hall & Hstat).
  rewrite Hrun in Hrun2. injection Hrun2 as <-.
  rewrite Hstat, Hbefore. unfold pruned_stat. rewrite decide_True; [done|].
  split; [by apply (Hall rel f)|done].
Qed.

(* ===================================================================== *)
(** ** The pruner: what remains, what is reported *)
(* ===================================================================== *)

(** C4.  When every removal the pruner attempts succeeds, then after
    [delete_unlisted_files] every file left below the root has its
    relative path on the allow-list, and every file below the root that
    was there before and whose relative path is on the allow-list is still
    there, unchanged. *)
Theorem prune_keeps_exactly_allowed (root_dir : path) (allowed_files : list string)
    (s : state) :
  (∀ rel f, stat (root_dir ++ rel) (fs s) = Some (KFile f) →
            os_path_relpath (root_dir ++ rel) root_dir ∉ allowed_files →
            can_remove f = true) →
  ∃ s' : state,
    delete_unlisted_files root_dir allowed_files s = Ok tt s' ∧
    (∀ rel f, rel ≠ [] →
              stat (root_dir ++ rel) (fs s') = Some (KFile f) →
              os_path_relpath (root_dir ++ rel) root_dir ∈ allowed_files) ∧
    (∀ rel f, stat (root_dir ++ rel) (fs s) = Some (KFile f) →
              os_path_relpath (root_dir ++ rel) root_dir ∈ allowed_files →
              stat (root_dir ++ rel) (fs s') = Some (KFile f)).
Proof.
  intros Hsucceeds.
  destruct (delete_unlisted_files_spec root_dir allowed_files s)
    as (s' & L & Hrun & _ & _ & _ & _ & Hall & Hstat).
  exists s'. split; [done|]. split.
  - intros rel f Hrel Hafter. rewrite Hstat in Hafter. unfold pruned_stat in Hafter.
    destruct (stat (root_dir ++ rel) (fs s)) as [[f0|]|] eqn:Hbefore; [|done..].
    case_decide as Hcond; [done|].
    apply dec_stable. intros Hout. apply Hcond.
    split; [by apply (Hall rel f0)|]. split; [done|].
    by apply (Hsucceeds rel f0).
  - intros rel f Hbefore Hin. rewrite Hstat, Hbefore. unfold pruned_stat.
    rewrite decide_False; [done|]. by intros (_ & Hout & _).
Qed.

(** C7.  [delete_unlisted_files] never raises.  Of the files below the root
    that are not on the allow-list, each one whose removal succeeds is
    gone afterwards, whatever happened to the others; each one whose
    removal fails is still there and its failure has been printed. *)
Theorem prune_survives_failed_removals (root_dir : path) (allowed_files : list string)
    (s : state) :
  ∃ s' : state,
    delete_unlisted_files root_dir allowed_files s = Ok tt s' ∧
    ∀ rel f,
      rel ≠ [] →
      stat (root_dir ++ rel) (fs s) = Some (KFile f) →
      os_path_relpath (root_dir ++ rel) root_dir ∉ allowed_files →
      (can_remove f = true → stat (root_dir ++ rel) (fs s') = None) ∧
      (can_remove f = false →
         stat (root_dir ++ rel) (fs s') = Some (KFile f) ∧
         ErrorDeleting (os_path_relpath (root_dir ++ rel) root_dir) PermissionError
           ∈ stdout s').
Proof.
  destruct (delete_unlisted_files_spec root_dir allowed_files s)
    as (s' & L & Hrun & Hloop & HL & _ & _ & Hall & Hstat).
  exists s'. split; [done|].
  intros rel f Hrel Hbefore Hout. split; intros Hrm.
  - by apply (delete_unlisted_files_removes root_dir allowed_files s s' rel f).
  - split.
    + rewrite Hstat, Hbefore. unfold pruned_stat. rewrite decide_False; [done|].
      intros (_ & _ & ?). congruence.
    + apply (prune_loop_reports root_dir allowed_files L HL s s' _ f); try done.
      by apply (Hall rel f).
Qed.

(** C10.  [delete_unlisted_files] removes no directory: whatever the
    allow-list holds, every directory of the tree, empty or not, is a
    directory afterwards. *)
Theorem prune_keeps_directories (root_dir : path) (allowed_files : list string)
    (s : state) :
  ∃ s' : state,
    delete_unlisted_files root_dir allowed_files s = Ok tt s' ∧
    ∀ q, stat q (fs s) = Some KDir → stat q (fs s') = Some KDir.
Proof.
  destruct (delete_unlisted_files_spec root_dir allowed_files s)
    as (s' & L & Hrun & _ & _ & _ & _ & _ & Hstat).
  exists s'. split; [done|].
  intros q Hdir. by rewrite Hstat, Hdir.
Qed.

(* ===================================================================== *)
(** ** The whole run *)
(* ===================================================================== *)

Lemma sep_join_venv (rel : path) :
  sep_join ("venv" :: rel) ∉ default_files_to_keep.
Proof.
  assert (∃ tail, sep_join ("venv" :: rel) = String "v" tail) as [tail ->].
  { destruct rel; simpl; eauto. }
  unfold default_files_to_keep. rewrite !not_elem_of_cons.
  repeat split; try discriminate. apply not_elem_of_nil.
Qed.

Section Run.

Variable sha256_hexdigest : string → string.
Variable venv_create : path → node → exn + node.
Variable json_load : string → option (list string).
Variable getcwd : path.
Variable os_name : string.

Local Abbreviation write_templates' :=
  (write_templates sha256_hexdigest venv_create os_name).
Local Abbreviation load_files_to_keep' := (load_files_to_keep json_load getcwd).
Local Abbreviation create_project_structure' :=
  (create_project_structure sha256_hexdigest venv_create json_load getcwd os_name).

(** The statements of [create_project_structure] after the templates
    are written and the allow-list is loaded (lines 102-107). *)
Lemma run_after_templates (project_name : string) (overwrite install_deps : bool)
    (s s1 : state) :
  write_templates' (os_path_join getcwd project_name) overwrite s = Ok tt s1 →
  create_project_structure' project_name overwrite install_deps s =
    (files_to_keep <- load_files_to_keep' ;;
     delete_unlisted_files (os_path_join getcwd project_name) files_to_keep ;;
     (if install_deps then print RememberToActivate else ret tt) ;;
     print (ProjectStructureCreated project_name (os_path_join getcwd project_name))) s1.
Proof.
  intros Hwt. unfold create_project_structure.
  by rewrite (bind_unfold (write_templates' _ _)), Hwt.
Qed.

Lemma run_raises_in_templates (project_name : string) (overwrite install_deps : bool)
    (s s1 : state) (e : exn) :
  write_templates' (os_path_join getcwd project_name) overwrite s = Raise e s1 →
  create_project_structure' project_name overwrite install_deps s = Raise e s1.
Proof.
  intros Hwt. unfold create_project_structure.
  by rewrite (bind_unfold (write_templates' _ _)), Hwt.
Qed.

Lemma load_missing_manifest (s : state) :
  resolve (os_path_join getcwd "files_to_keep.json") (fs s) = inl FileNotFoundError →
  load_files_to_keep' s =
    Ok default_files_to_keep
       {| fs := fs s; stdout := stdout s ++ [ManifestNotFound]; procs := procs s |}.
Proof.
  intros Hres. unfold load_files_to_keep, try_except.
  rewrite bind_unfold. unfold open_r. by rewrite Hres.
Qed.

Lemma load_malformed_manifest (s : state) (f : file) :
  resolve (os_path_join getcwd "files_to_keep.json") (fs s) = inr (File f) →
  can_read f = true →
  json_load (text f) = None →
  load_files_to_keep' s = Raise JSONDecodeError s.
Proof.
  intros Hres Hread Hjson. unfold load_files_to_keep, try_except.
  rewrite bind_unfold. unfold open_r. by rewrite Hres, Hread, Hjson.
Qed.

(** The run from the pruner on, for a given allow-list: it ends
    normally, in the tree the pruner leaves. *)
Lemma run_tail (root_dir : path) (files_to_keep : list string)
    (project_name : string) (install_deps : bool) (s : state) :
  ∃ s2 s' : state,
    delete_unlisted_files root_dir files_to_keep s = Ok tt s2 ∧
    (delete_unlisted_files root_dir files_to_keep ;;
     (if install_deps then print RememberToActivate else ret tt) ;;
     print (ProjectStructureCreated project_name root_dir)) s = Ok tt s' ∧
    fs s' = fs s2 ∧
    procs s' = procs s ∧
    (∃ extra, stdout s2 = stdout s ++ extra) ∧
    stdout s' = stdout s2
                  ++ (if install_deps then [RememberToActivate] else [])
                  ++ [ProjectStructureCreated project_name root_dir].
Proof.
  destruct (delete_unlisted_files_spec root_dir files_to_keep s)
    as (s2 & L & Hrun & _ & _ & Hprocs & Hout & _).
  exists s2. rewrite bind_unfold, Hrun.
  destruct install_deps; eexists; (split; [done|]);
    (split; [reflexivity|]); cbn; repeat split; try done.
  by rewrite <- app_assoc.
Qed.

(** C5.  When the manifest is missing once the templates are written,
    the run prunes with the default allow-list and ends normally; no
    entry of that list names a path below [venv], so every file below
    the [venv] directory of the project whose removal succeeds is gone at
    the end of the run. *)
Theorem default_list_prunes_venv (project_name : string) (overwrite install_deps : bool)
    (s s1 : state) :
  let root_dir := os_path_join getcwd project_name in
  write_templates' root_dir overwrite s = Ok tt s1 →
  resolve (os_path_join getcwd "files_to_keep.json") (fs s1) = inl FileNotFoundError →
  ∃ s' : state,
    create_project_structure' project_name overwrite install_deps s = Ok tt s' ∧
    ∀ rel f,
      stat (os_path_join root_dir "venv" ++ rel) (fs s1) = Some (KFile f) →
      can_remove f = true →
      stat (os_path_join root_dir "venv" ++ rel) (fs s') = None.
Proof.
  intros root_dir Hwt Hmissing.
  rewrite (run_after_templates _ _ _ s s1 Hwt).
  rewrite bind_unfold, (load_missing_manifest s1 Hmissing).
  set (s1' := {| fs := fs s1; stdout := stdout s1 ++ [ManifestNotFound];
                 procs := procs s1 |}).
  destruct (run_tail root_dir default_files_to_keep project_name install_deps s1')
    as (s2 & s' & Hprune & Hrun & Hfs & _).
  exists s'. split; [done|].
  intros rel f Hbefore Hrm. rewrite Hfs.
  change (os_path_join root_dir "venv") with (root_dir ++ ["venv"]) in *.
  rewrite <- app_assoc in *. cbn [app] in *.
  apply (delete_unlisted_files_removes root_dir default_files_to_keep s1' s2
           ("venv" :: rel) f); try done.
  rewrite relpath_under; [apply sep_join_venv|done].
Qed.

(** C6.  Once the templates are written: if the manifest is missing, the
    loader prints its warning and yields the default allow-list of five
    paths, and the run goes on to prune with that list and ends
    normally; if the manifest is there and its text is not JSON, the
    loader raises [JSONDecodeError], which its handler does not catch,
    and the run ends with that exception before it prunes. *)
Theorem manifest_missing_or_malformed (project_name : string)
    (overwrite install_deps : bool) (s s1 : state) :
  let root_dir := os_path_join getcwd project_name in
  let manifest := os_path_join getcwd "files_to_keep.json" in
  let warned := {| fs := fs s1; stdout := stdout s1 ++ [ManifestNotFound];
                   procs := procs s1 |} in
  write_templates' root_dir overwrite s = Ok tt s1 →
  default_files_to_keep =
    ["README.md"; "config/config.yaml"; "notebooks/data_analysis.ipynb";
     "scripts/fetch_data.py"; "scripts/process_data.py"] ∧
  (resolve manifest (fs s1) = inl FileNotFoundError →
     load_files_to_keep' s1 = Ok default_files_to_keep warned ∧
     ∃ s2 s' : state,
       delete_unlisted_files root_dir default_files_to_keep warned = Ok tt s2 ∧
       create_project_structure' project_name overwrite install_deps s = Ok tt s' ∧
       fs s' = fs s2 ∧
       ManifestNotFound ∈ stdout s') ∧
  (∀ f, resolve manifest (fs s1) = inr (File f) →
        can_read f = true →
        json_load (text f) = None →
        load_files_to_keep' s1 = Raise JSONDecodeError s1 ∧
        create_project_structure' project_name overwrite install_deps s
          = Raise JSONDecodeError s1).
Proof.
  intros root_dir manifest warned Hwt. split; [done|]. split.
  - intros Hmissing. split; [by apply load_missing_manifest|].
    rewrite (run_after_templates _ _ _ s s1 Hwt).
    rewrite bind_unfold, (load_missing_manifest s1 Hmissing).
    destruct (run_tail root_dir default_files_to_keep project_name install_deps warned)
      as (s2 & s' & Hprune & Hrun & Hfs & _ & (extra & Hextra) & Hout).
    exists s2, s'. repeat split; try done.
    rewrite Hout, Hextra. subst warned. cbn [stdout].
    apply elem_of_app. left. apply elem_of_app. left.
    apply elem_of_app. right. apply list_elem_of_here.
  - intros f Hres Hread Hjson.
    pose proof (load_malformed_manifest s1 f Hres Hread Hjson) as Hload.
    split; [done|].
    rewrite (run_after_templates _ _ _ s s1 Hwt).
    by rewrite bind_unfold, Hload.
Qed.

(** C9.  Two runs that differ in [install_deps] only end in the same
    tree, with the same processes started, and both normally or both
    with the same exception; what they have printed differs only in the
    reminder line that the run with [install_deps] prints before its
    last line. *)
Theorem install_deps_is_cosmetic (project_name : string) (overwrite : bool)
    (s : state) :
  let with_deps := create_project_structure' project_name overwrite true s in
  let without := create_project_structure' project_name overwrite false s in
  let last := ProjectStructureCreated project_name (os_path_join getcwd project_name) in
  fs (state_of with_deps) = fs (state_of without) ∧
  procs (state_of with_deps) = procs (state_of without) ∧
  raised with_deps = raised without ∧
  match raised without with
  | None => ∃ before,
      stdout (state_of with_deps) = before ++ [RememberToActivate; last] ∧
      stdout (state_of without) = before ++ [last]
  | Some _ => stdout (state_of with_deps) = stdout (state_of without)
  end.
Proof.
  intros with_deps without last. subst with_deps without.
  destruct (write_templates' (os_path_join getcwd project_name) overwrite s)
    as [[] s1|e s1] eqn:Hwt.
  - rewrite !(run_after_templates _ _ _ s s1 Hwt), !bind_unfold.
    destruct (load_files_to_keep' s1) as [files_to_keep s2|e s2]; [|done].
    destruct (run_tail (os_path_join getcwd project_name) files_to_keep
                project_name true s2)
      as (s3 & sy & Hprune & Hyes & Hfsy & Hpy & _ & Houty).
    destruct (run_tail (os_path_join getcwd project_name) files_to_keep
                project_name false s2)
      as (s3' & sn & Hprune' & Hno & Hfsn & Hpn & _ & Houtn).
    rewrite Hprune in Hprune'. injection Hprune' as <-.
    rewrite Hyes, Hno. cbn [state_of raised].
    repeat split; [congruence|congruence|].
    exists (stdout s3). by rewrite Houty, Houtn.
  - by rewrite !(run_raises_in_templates _ _ _ s s1 e Hwt).
Qed.

End Run.

(* ===================================================================== *)
(** ** The template writer *)
(* ===================================================================== *)

Section TemplateWriter.

Variable sha256_hexdigest : string → string.

Local Abbreviation create_file' := (create_file sha256_hexdigest).

(** C1.  [create_file] on a path at which nothing exists: [open] for
    reading raises, the handler for [Exception] prints the error and
    returns, and the statements that would create the file are never
    reached.  The tree is as it was; the file still does not exist. *)
Theorem create_file_missing_not_created (filepath : path) (content : string)
    (overwrite : bool) (s : state) :
  stat filepath (fs s) = None →
  ∃ (e : exn) (s' : state),
    create_file' filepath content overwrite s = Ok tt s' ∧
    fs s' = fs s ∧
    stdout s' = stdout s ++ [ErrorCheckingFile filepath e] ∧
    stat filepath (fs s') = None.
Proof.
  intros Hmissing. pose proof Hmissing as Hres. unfold stat in Hres.
  destruct (resolve filepath (fs s)) as [e|[f|es]] eqn:Hopen; [|done..].
  exists e. eexists. split.
  - unfold create_file, try_except. rewrite !bind_unfold. unfold open_r.
    rewrite Hopen. reflexivity.
  - by cbn.
Qed.

(** C2.  [create_file] with [overwrite=False] on an existing file that
    can be opened for reading and for writing: the hashes are not
    compared, the [try] block falls through, and the file is written
    again; its content afterwards is the template text, whatever it was
    before. *)
Theorem create_file_no_overwrite_rewrites (filepath : path) (content : string)
    (s : state) (f : file) :
  filepath ≠ [] →
  resolve filepath (fs s) = inr (File f) →
  can_read f = true →
  can_write f = true →
  ∃ s' : state,
    create_file' filepath content false s = Ok tt s' ∧
    stdout s' = stdout s ++ [UpdatingOrCreating filepath] ∧
    stat filepath (fs s') = Some (KFile (set_content content f)).
Proof.
  intros Hne Hres Hread Hwrite.
  unfold create_file, try_except. rewrite !bind_unfold. unfold open_r.
  rewrite Hres, Hread. cbn. unfold open_w. cbn [fs]. rewrite Hres, Hwrite.
  eexists. split; [reflexivity|]. split; [done|].
  cbn [fs set_fs]. unfold stat.
  by rewrite (resolve_tree_set_eq filepath _ (fs s) f Hres Hne).
Qed.


End TemplateWriter.

(* ===================================================================== *)
(** ** Child processes *)
(* ===================================================================== *)

Lemma ret_no_process {A} (a : A) : starts_no_process (ret a).
Proof. done. Qed.

Lemma raise_no_process {A} (e : exn) : starts_no_process (@raise A e).
Proof. done. Qed.

Lemma print_no_process (l : line) : starts_no_process (print l).
Proof. done. Qed.

Lemma bind_no_process {A B} (m : M A) (k : A → M B) :
  starts_no_process m → (∀ a, starts_no_process (k a)) → starts_no_process (bind m k).
Proof.
  intros Hm Hk s. rewrite bind_unfold. specialize (Hm s).
  destruct (m s) as [a s1|e s1]; [|done].
  rewrite <- Hm. apply Hk.
Qed.

Lemma try_except_no_process {A} (body : M A) (matches : exn → bool) (handler : exn → M A) :
  starts_no_process body → (∀ e, starts_no_process (handler e)) →
  starts_no_process (try_except body matches handler).
Proof.
  intros Hbody Hh s. unfold try_except. specialize (Hbody s).
  destruct (body s) as [a s1|e s1]; [done|].
  destruct (matches e); [|done]. rewrite <- Hbody. apply Hh.
Qed.

Lemma for_each_no_process {A} (l : list A) (body : A → M unit) :
  (∀ x, starts_no_process (body x)) → starts_no_process (for_each l body).
Proof.
  intros Hbody. induction l as [|x l IH]; [done|].
  cbn [for_each]. by apply bind_no_process.
Qed.

Lemma open_r_no_process (filepath : path) : starts_no_process (open_r filepath).
Proof.
  intros s. unfold open_r.
  destruct (resolve filepath (fs s)) as [e|[f|es]]; [done| |done].
  by destruct (can_read f).
Qed.

Lemma open_w_no_process (filepath : path) (content : string) :
  starts_no_process (open_w filepath content).
Proof.
  intros s. unfold open_w.
  destruct (resolve filepath (fs s)) as [e|[f|es]]; [| |done].
  - destruct e; try done; destruct filepath; try done;
      by destruct (resolve _ (fs s)) as [?|[?|?]].
  - by destruct (can_write f).
Qed.

Lemma os_makedirs_no_process (p : path) : starts_no_process (os_makedirs p).
Proof. intros s. unfold os_makedirs. by destruct (makedirs p (fs s)). Qed.

Lemma delete_unlisted_files_no_process (root_dir : path) (allowed_files : list string) :
  starts_no_process (delete_unlisted_files root_dir allowed_files).
Proof.
  intros s.
  destruct (delete_unlisted_files_spec root_dir allowed_files s)
    as (s' & L & -> & _ & _ & Hprocs & _).
  done.
Qed.

Section Processes.

Variable sha256_hexdigest : string → string.
Variable venv_create : path → node → exn + node.
Variable json_load : string → option (list string).
Variable child : list string → path → node → exn + (Z * node).
Variable getcwd : path.
Variable os_name : string.

Lemma create_file_no_process (filepath : path) (content : string) (overwrite : bool) :
  starts_no_process (create_file sha256_hexdigest filepath content overwrite).
Proof.
  unfold create_file. apply bind_no_process.
  - apply try_except_no_process.
    + apply bind_no_process; [apply open_r_no_process|].
      intros existing. destruct overwrite; [|apply ret_no_process].
      case_decide; [|apply ret_no_process].
      apply bind_no_process; [apply print_no_process|]. intros; apply ret_no_process.
    + intros e. apply bind_no_process; [apply print_no_process|].
      intros; apply ret_no_process.
  - intros [|]; [apply ret_no_process|].
    apply bind_no_process; [apply print_no_process|].
    intros; apply open_w_no_process.
Qed.

Lemma write_templates_no_process (root_dir : path) (overwrite : bool) :
  starts_no_process
    (write_templates sha256_hexdigest venv_create os_name root_dir overwrite).
Proof.
  unfold write_templates. apply bind_no_process.
  { unfold create_and_activate_venv. apply bind_no_process.
    - intros s. unfold venv_create_at. by destruct (venv_create _ (fs s)).
    - intros _. apply bind_no_process; [apply print_no_process|].
      intros _. case_decide; apply print_no_process. }
  intros _. apply bind_no_process.
  { apply for_each_no_process. intros folder. apply os_makedirs_no_process. }
  intros _. apply bind_no_process.
  { apply for_each_no_process. intros [filepath content].
    apply create_file_no_process. }
  intros _. apply for_each_no_process. intros [group filenames].
  apply for_each_no_process. intros filename. apply create_file_no_process.
Qed.

Lemma load_files_to_keep_no_process :
  starts_no_process (load_files_to_keep json_load getcwd).
Proof.
  unfold load_files_to_keep. apply try_except_no_process.
  - apply bind_no_process; [apply open_r_no_process|].
    intros manifest. destruct (json_load manifest);
      [apply ret_no_process|apply raise_no_process].
  - intros e. apply bind_no_process; [apply print_no_process|].
    intros; apply ret_no_process.
Qed.

Lemma create_project_structure_no_process (project_name : string)
    (overwrite install_deps : bool) :
  starts_no_process
    (create_project_structure sha256_hexdigest venv_create json_load getcwd os_name
       project_name overwrite install_deps).
Proof.
  unfold create_project_structure.
  apply bind_no_process; [apply write_templates_no_process|].
  intros _. apply bind_no_process; [apply load_files_to_keep_no_process|].
  intros files_to_keep.
  apply bind_no_process; [apply delete_unlisted_files_no_process|].
  intros _. apply bind_no_process; [|intros; apply print_no_process].
  destruct install_deps; [apply print_no_process|apply ret_no_process].
Qed.

(** C8, as the code has it.  [run_npm_command] starts [npm] and waits for
    it.  An exit status other than zero raises [CalledProcessError]
    inside the [try] block; the handler catches it, prints it, and the
    function returns normally.  An exit status of zero returns normally
    with nothing printed.  [create_project_structure] never starts a
    process: the processes started are the same after it as before it,
    however it ends. *)
Theorem npm_failure_is_reported_and_never_run :
  (∀ (project_path : path) (command : string) (s : state) (returncode : Z) (t : node),
     child ["npm"; command] project_path (fs s) = inr (returncode, t) →
     returncode ≠ 0%Z →
     raised (subprocess_run_check child ["npm"; command] project_path s)
       = Some (CalledProcessError returncode)) ∧
  (∀ (project_path : path) (command : string) (s : state) (returncode : Z) (t : node),
     child ["npm"; command] project_path (fs s) = inr (returncode, t) →
     run_npm_command child project_path command s =
       Ok tt {| fs := t;
                stdout := if decide (returncode = 0%Z) then stdout s
                          else stdout s ++ [ErrorRunningNpm (CalledProcessError returncode)];
                procs := procs s ++ [(["npm"; command], project_path)] |}) ∧
  (∀ (project_name : string) (overwrite install_deps : bool) (s : state),
     procs (state_of
              (create_project_structure sha256_hexdigest venv_create json_load
                 getcwd os_name project_name overwrite install_deps s))
     = procs s).
Proof.
  split; [|split].
  - intros project_path command s returncode t Hchild Hnonzero.
    unfold subprocess_run_check. cbn [fs]. rewrite Hchild.
    by rewrite decide_False.
  - intros project_path command s returncode t Hchild.
    unfold run_npm_command, try_except, subprocess_run_check.
    cbn [fs]. rewrite Hchild. by case_decide.
  - intros project_name overwrite install_deps.
    apply create_project_structure_no_process.
Qed.

End Processes.

(* ===================================================================== *)
(** ** The script on concrete trees *)
(* ===================================================================== *)

Lemma all_files_resolve (P : file → bool) (p : path) :
  ∀ (n : node) (f : file),
    all_files P n = true → resolve p n = inr (File f) → P f = true.
Proof.
  induction p as [|x p IH]; intros n f Hall Hres.
  - simpl in Hres. injection Hres as ->. done.
  - simpl in Hres. destruct n as [?|es]; [done|].
    destruct (es !! x) as [c|] eqn:Hc; [|done].
    apply (IH c f); [|done].
    cbn [all_files] in Hall. rewrite map_fold_foldr in Hall.
    apply elem_of_map_to_list in Hc.
    induction (map_to_list es) as [|[k d] l IHl]; [by apply elem_of_nil in Hc|].
    simpl in Hall. apply andb_true_iff in Hall as [Hd Hl].
    apply elem_of_cons in Hc as [Heq|Hin]; [by injection Heq as <- <-|by apply IHl].
Qed.

(** A first run in an empty directory ends normally and leaves none of
    the five template files: the environment and the folders are all
    there is, and the pruner then removes the files of the environment. *)
Example first_run_creates_no_template :
  ∃ s' : state,
    create_project_structure plain_digest small_venv_create empty_array_json_load
      home "posix" "myapp" false true (world fresh_tree) = Ok tt s' ∧
    stat (home ++ ["myapp"; "README.md"]) (fs s') = None ∧
    stat (home ++ ["myapp"; "config"; "config.yaml"]) (fs s') = None ∧
    stat (home ++ ["myapp"; "notebooks"; "data_analysis.ipynb"]) (fs s') = None ∧
    stat (home ++ ["myapp"; "scripts"; "fetch_data.py"]) (fs s') = None ∧
    stat (home ++ ["myapp"; "scripts"; "process_data.py"]) (fs s') = None ∧
    stat (home ++ ["myapp"; "scripts"]) (fs s') = Some KDir ∧
    stat (home ++ ["myapp"; "venv"; "pyvenv.cfg"]) (fs s') = None.
Proof. eexists. split; [vm_compute; reflexivity|]. by vm_compute. Qed.

(** C1 on the first template of a first run: [README.md] is reported as
    an error and not created. *)
Lemma create_file_missing_not_created_witness :
  ∃ (e : exn) (s' : state),
    create_file plain_digest (home ++ ["myapp"; "README.md"])
      "# Project Title" false (world fresh_tree) = Ok tt s' ∧
    fs s' = fresh_tree ∧
    stdout s' = [ErrorCheckingFile (home ++ ["myapp"; "README.md"]) e] ∧
    stat (home ++ ["myapp"; "README.md"]) (fs s') = None.
Proof.
  apply (create_file_missing_not_created plain_digest
           (home ++ ["myapp"; "README.md"]) "# Project Title" false (world fresh_tree)).
  vm_compute. reflexivity.
Defined.

(** C2 on the README the user has written: answering no to the overwrite
    question replaces [my notes] by the template. *)
Lemma create_file_no_overwrite_rewrites_witness :
  ∃ s' : state,
    create_file plain_digest (home ++ ["myapp"; "README.md"])
      "# Project Title" false (world used_tree) = Ok tt s' ∧
    stdout s' = [UpdatingOrCreating (home ++ ["myapp"; "README.md"])] ∧
    stat (home ++ ["myapp"; "README.md"]) (fs s')
      = Some (KFile (new_file "# Project Title")).
Proof.
  apply (create_file_no_overwrite_rewrites plain_digest
           (home ++ ["myapp"; "README.md"]) "# Project Title"
           (world used_tree) (new_file "my notes")).
  - discriminate.
  - vm_compute. reflexivity.
  - reflexivity.
  - reflexivity.
Defined.


(** C4 on the project that has been worked on, with the default
    allow-list: every file can be removed. *)
Lemma prune_keeps_exactly_allowed_witness :
  ∃ s' : state,
    delete_unlisted_files (home ++ ["myapp"]) default_files_to_keep (world used_tree)
      = Ok tt s' ∧
    (∀ rel f, rel ≠ [] →
              stat ((home ++ ["myapp"]) ++ rel) (fs s') = Some (KFile f) →
              os_path_relpath ((home ++ ["myapp"]) ++ rel) (home ++ ["myapp"])
                ∈ default_files_to_keep) ∧
    (∀ rel f, stat ((home ++ ["myapp"]) ++ rel) used_tree = Some (KFile f) →
              os_path_relpath ((home ++ ["myapp"]) ++ rel) (home ++ ["myapp"])
                ∈ default_files_to_keep →
              stat ((home ++ ["myapp"]) ++ rel) (fs s') = Some (KFile f)).
Proof.
  apply (prune_keeps_exactly_allowed (home ++ ["myapp"]) default_files_to_keep
           (world used_tree)).
  intros rel f Hstat _. apply stat_file_iff in Hstat.
  apply (all_files_resolve can_remove ((home ++ ["myapp"]) ++ rel) used_tree f);
    [|exact Hstat].
  vm_compute. reflexivity.
Defined.

(** C5 on a first run: the two files of the environment are gone at the
    end of the run that created them. *)
Lemma default_list_prunes_venv_witness :
  ∃ s' : state,
    create_project_structure plain_digest small_venv_create empty_array_json_load
      home "posix" "myapp" false true (world fresh_tree) = Ok tt s' ∧
    stat (home ++ ["myapp"; "venv"; "pyvenv.cfg"]) (fs s') = None ∧
    stat (home ++ ["myapp"; "venv"; "bin"; "activate"]) (fs s') = None.
Proof.
  destruct (default_list_prunes_venv plain_digest small_venv_create
              empty_array_json_load home "posix" "myapp" false true
              (world fresh_tree)
              (state_of (write_templates plain_digest small_venv_create "posix"
                           (os_path_join home "myapp") false (world fresh_tree))))
    as (s' & Hrun & Hgone).
  - vm_compute. reflexivity.
  - vm_compute. reflexivity.
  - exists s'. split; [exact Hrun|]. split.
    + apply (Hgone ["pyvenv.cfg"] (new_file "home = /usr/bin"));
        vm_compute; reflexivity.
    + apply (Hgone ["bin"; "activate"] (new_file "# activate"));
        vm_compute; reflexivity.
Defined.

(** C6 on a first run without a manifest, and on a working directory
    whose manifest is a list of names without brackets or quotes. *)
Lemma manifest_missing_or_malformed_witness :
  (∃ s' : state,
     create_project_structure plain_digest small_venv_create empty_array_json_load
       home "posix" "myapp" false true (world fresh_tree) = Ok tt s' ∧
     ManifestNotFound ∈ stdout s') ∧
  raised (create_project_structure plain_digest small_venv_create empty_array_json_load
            home "posix" "myapp" false true (world broken_manifest_tree))
    = Some JSONDecodeError.
Proof.
  split.
  - destruct (manifest_missing_or_malformed plain_digest small_venv_create
                empty_array_json_load home "posix" "myapp" false true
                (world fresh_tree)
                (state_of (write_templates plain_digest small_venv_create "posix"
                             (os_path_join home "myapp") false (world fresh_tree))))
      as (_ & Hmissing & _); [vm_compute; reflexivity|].
    destruct Hmissing as (_ & s2 & s' & _ & Hrun & _ & Hwarned);
      [vm_compute; reflexivity|].
    exists s'. split; [exact Hrun|exact Hwarned].
  - destruct (manifest_missing_or_malformed plain_digest small_venv_create
                empty_array_json_load home "posix" "myapp" false true
                (world broken_manifest_tree)
                (state_of (write_templates plain_digest small_venv_create "posix"
                             (os_path_join home "myapp") false
                             (world broken_manifest_tree))))
      as (_ & _ & Hmalformed); [vm_compute; reflexivity|].
    destruct (Hmalformed (new_file "README.md, config")) as (_ & Hrun);
      [vm_compute; reflexivity|reflexivity|reflexivity|].
    rewrite Hrun. reflexivity.
Defined.

(** C8 as stated fails: [npm] exits with status 1, and [run_npm_command]
    returns normally after printing the error; nothing is aborted. *)
Lemma npm_failure_does_not_abort :
  run_npm_command failing_npm (home ++ ["myapp"]) "install" (world used_tree) =
    Ok tt {| fs := used_tree;
             stdout := [ErrorRunningNpm (CalledProcessError 1)];
             procs := [(["npm"; "install"], home ++ ["myapp"])] |} ∧
  raised (run_npm_command failing_npm (home ++ ["myapp"]) "install" (world used_tree))
    ≠ Some (CalledProcessError 1).
Proof. split; [reflexivity|discriminate]. Qed.

(* ===================================================================== *)
(** ** Induction on trees, and what [os.walk] visits *)
(* ===================================================================== *)

Lemma height_child (es : gmap string node) (k : string) (c : node) :
  es !! k = Some c → height c < height (Dir es).
Proof.
  intros Hc. cbn [height]. rewrite map_fold_foldr.
  apply elem_of_map_to_list in Hc.
  induction (map_to_list es) as [|[k' d] l IH]; [by apply elem_of_nil in Hc|].
  simpl. apply elem_of_cons in Hc as [Heq|Hin].
  - injection Heq as <- <-. lia.
  - specialize (IH Hin). lia.
Qed.

(** Induction on a tree: a property of a directory follows from the
    property of its entries. *)
Lemma node_children_ind (P : node → Prop) :
  (∀ f, P (File f)) →
  (∀ es, (∀ k c, es !! k = Some c → P c) → P (Dir es)) →
  ∀ n, P n.
Proof.
  intros Hfile Hdir n.
  remember (height n) as h eqn:Hh. revert n Hh.
  induction h as [h IH] using lt_wf_ind. intros [f|es] ->; [apply Hfile|].
  apply Hdir. intros k c Hc. apply (IH (height c)); [|done].
  by apply (height_child es k).
Qed.

Lemma walk_node_inv (top : path) (es : gmap string node) t :
  t ∈ walk_node top (Dir es) →
  t = (top, dirnames es, filenames es) ∨
  ∃ name c, es !! name = Some c ∧ t ∈ walk_node (top ++ [name]) c.
Proof.
  cbn [walk_node]. intros [->|Hin]%elem_of_cons; [by left|]. right.
  rewrite map_fold_foldr in Hin.
  assert (∀ l : list (string * node),
            t ∈ foldr (uncurry (λ name c acc, walk_node (top ++ [name]) c ++ acc)) [] l →
            ∃ name c, (name, c) ∈ l ∧ t ∈ walk_node (top ++ [name]) c) as Hl.
  { induction l as [|[k d] l IH]; simpl; [by intros ?%elem_of_nil|].
    intros [Hhere|Hthere]%elem_of_app.
    - exists k, d. split; [apply list_elem_of_here|done].
    - destruct (IH Hthere) as (name & c & ? & ?). exists name, c.
      split; [by apply list_elem_of_further|done]. }
  destruct (Hl _ Hin) as (name & c & Hc & Ht).
  exists name, c. split; [by apply elem_of_map_to_list|done].
Qed.

(** Every triple of the walk is a directory below [top], with the names
    of its own entries. *)
Lemma walk_node_sound (n : node) :
  ∀ (top : path) t,
    t ∈ walk_node top n →
    ∃ d es, t = (top ++ d, dirnames es, filenames es) ∧ resolve d n = inr (Dir es).
Proof.
  induction n as [f|es IH] using node_children_ind; intros top t Ht.
  - by apply elem_of_nil in Ht.
  - apply walk_node_inv in Ht as [->|(name & c & Hc & Ht)].
    + exists [], es. by rewrite app_nil_r.
    + destruct (IH name c Hc _ _ Ht) as (d & es' & -> & Hres).
      exists (name :: d), es'. split.
      * by rewrite <- app_assoc.
      * simpl. by rewrite Hc.
Qed.

(** Every path the loops of the pruner visit is a regular file strictly
    below [top]. *)
Lemma walk_files_sound (top : path) (n : node) (p : path) :
  p ∈ walk_files (walk_node top n) →
  ∃ rel f, rel ≠ [] ∧ p = top ++ rel ∧ resolve rel n = inr (File f).
Proof.
  intros Hp. unfold walk_files in Hp.
  apply list_elem_of_In, in_flat_map in Hp as ([[root dirs] names] & Ht & Hp).
  apply list_elem_of_In in Ht.
  apply list_elem_of_In, list_elem_of_fmap in Hp as (name & -> & Hname).
  destruct (walk_node_sound n top _ Ht) as (d & es & Heq & Hres).
  injection Heq as -> -> ->.
  apply elem_of_filenames in Hname as [f Hf].
  exists (d ++ [name]), f. split; [by destruct d|]. split; [by rewrite app_assoc|].
  rewrite resolve_app, Hres. simpl. by rewrite Hf.
Qed.

(* ===================================================================== *)
(** ** The pruner: what it leaves alone *)
(* ===================================================================== *)

(** The pruner as the loop over the files it visits: they are the regular
    files strictly below the root, all of them. *)
Lemma delete_unlisted_files_visits (root_dir : path) (allowed_files : list string)
    (s : state) :
  ∃ (s' : state) (L : list path),
    delete_unlisted_files root_dir allowed_files s = Ok tt s' ∧
    for_each L (prune_file root_dir allowed_files) s = Ok tt s' ∧
    Forall (λ p : path, p ≠ []) L ∧
    (∀ p, p ∈ L → ∃ rel f, rel ≠ [] ∧ p = root_dir ++ rel ∧
                           stat p (fs s) = Some (KFile f)) ∧
    (∀ rel f, rel ≠ [] → stat (root_dir ++ rel) (fs s) = Some (KFile f) →
              root_dir ++ rel ∈ L) ∧
    (∀ q, stat q (fs s') = pruned_stat root_dir allowed_files L q (stat q (fs s))).
Proof.
  rewrite delete_unlisted_files_flat.
  destruct (resolve root_dir (fs s)) as [e|n] eqn:Hroot.
  - exists s, []. repeat split; [done| | |].
    + by intros p ?%elem_of_nil.
    + intros rel f _ Hstat. apply stat_file_iff in Hstat.
      by rewrite resolve_app, Hroot in Hstat.
    + intros q. unfold pruned_stat. destruct (stat q (fs s)) as [[f|]|]; [|done..].
      rewrite decide_False; [done|]. by intros (?%elem_of_nil & _).
  - pose proof (walk_files_nonempty (walk_node root_dir n)) as Hne.
    destruct (prune_loop_spec root_dir allowed_files _ Hne s)
      as (s' & Hrun & _ & _ & Hstat).
    exists s', (walk_files (walk_node root_dir n)).
    repeat split; try done.
    + intros p Hp. apply walk_files_sound in Hp as (rel & f & Hrel & -> & Hres).
      exists rel, f. repeat split; [done|].
      apply stat_file_iff. by rewrite resolve_app, Hroot.
    + intros rel f Hrel Hf. apply stat_file_iff in Hf.
      rewrite resolve_app, Hroot in Hf.
      by apply (walk_files_complete root_dir rel n f).
Qed.

(** A file whose removal succeeds is reported once the loop has visited
    it. *)
Lemma prune_loop_reports_deleted (root_dir : path) (allowed_files : list string)
    (L : list path) :
  Forall (λ p : path, p ≠ []) L →
  ∀ (s s' : state) (p : path) (f : file),
    for_each L (prune_file root_dir allowed_files) s = Ok tt s' →
    p ∈ L →
    stat p (fs s) = Some (KFile f) →
    can_remove f = true →
    os_path_relpath p root_dir ∉ allowed_files →
    DeletedUnlisted (os_path_relpath p root_dir) ∈ stdout s'.
Proof.
  induction 1 as [|p0 L Hp0 HL IH]; intros s s' p f Hrun Hin Hstat Hrm Hout.
  - by apply elem_of_nil in Hin.
  - cbn [for_each] in Hrun. rewrite bind_unfold in Hrun.
    destruct (prune_file_step root_dir allowed_files p0 s) as (s1 & Hrun1 & Hstep).
    rewrite Hrun1 in Hrun.
    destruct (prune_loop_spec root_dir allowed_files L HL s1)
      as (s2 & Hrun2 & _ & (extra & Hextra) & _).
    rewrite Hrun in Hrun2. injection Hrun2 as <-.
    destruct (decide (p = p0)) as [->|Hne].
    + apply stat_file_iff in Hstat.
      destruct Hstep as [Hkeep _|f' _ _ _ _ Hs1 _|e _ Hres _ _ _].
      * by destruct Hout.
      * rewrite Hextra, Hs1. apply elem_of_app. left.
        apply elem_of_app. right. apply list_elem_of_here.
      * destruct (Hres f Hstat) as [Hno _]. congruence.
    + apply elem_of_cons in Hin as [?|Hin]; [done|].
      apply (IH s1 s' p f); try done.
      rewrite (prune_step_stat _ _ p0 s s1 Hp0 Hstep p), Hstat.
      unfold pruned_stat. rewrite decide_False; [done|].
      by intros (?%list_elem_of_singleton & _).
Qed.

(** X1.  The pruner changes nothing but regular files strictly below the
    root: at every path [stat] reports afterwards what it reported before,
    except at the files below the root that are not on the allow-list and
    whose removal succeeds, which are gone.  Nothing outside the root is
    touched, nothing is created, and no file changes its text. *)
Theorem prune_touches_only_unlisted_below_root (root_dir : path)
    (allowed_files : list string) (s : state) :
  ∃ s' : state,
    delete_unlisted_files root_dir allowed_files s = Ok tt s' ∧
    ∀ q, stat q (fs s') = stat q (fs s) ∨
         (stat q (fs s') = None ∧
          ∃ rel f, rel ≠ [] ∧ q = root_dir ++ rel ∧
                   stat q (fs s) = Some (KFile f) ∧
                   can_remove f = true ∧
                   os_path_relpath q root_dir ∉ allowed_files).
Proof.
  destruct (delete_unlisted_files_visits root_dir allowed_files s)
    as (s' & L & Hrun & _ & _ & Hsound & _ & Hstat).
  exists s'. split; [done|]. intros q. rewrite Hstat. unfold pruned_stat.
  destruct (stat q (fs s)) as [[f|]|] eqn:Hq; [|by left..].
  case_decide as Hcond; [|by left]. right. split; [done|].
  destruct Hcond as (HL & Hout & Hrm).
  destruct (Hsound q HL) as (rel & f' & Hrel & -> & Hf').
  exists rel, f. repeat split; done.
Qed.

(** X2.  Pruning twice is pruning once: the second pass over the tree the
    first pass has left ends normally too and changes nothing. *)
Theorem prune_twice_changes_nothing (root_dir : path) (allowed_files : list string)
    (s : state) :
  ∃ s' s'' : state,
    delete_unlisted_files root_dir allowed_files s = Ok tt s' ∧
    delete_unlisted_files root_dir allowed_files s' = Ok tt s'' ∧
    ∀ q, stat q (fs s'') = stat q (fs s').
Proof.
  destruct (delete_unlisted_files_visits root_dir allowed_files s)
    as (s' & L & Hrun & _ & _ & _ & Hall & Hstat).
  destruct (delete_unlisted_files_visits root_dir allowed_files s')
    as (s'' & L' & Hrun' & _ & _ & Hsound' & _ & Hstat').
  exists s', s''. split; [done|]. split; [done|].
  intros q. rewrite Hstat'. unfold pruned_stat at 1.
  destruct (stat q (fs s')) as [[f|]|] eqn:Hq; [|done..].
  rewrite decide_False; [done|]. intros (HL' & Hout & Hrm).
  destruct (Hsound' q HL') as (rel & f' & Hrel & -> & _).
  rewrite Hstat in Hq. unfold pruned_stat in Hq.
  destruct (stat (root_dir ++ rel) (fs s)) as [[f0|]|] eqn:Hq0; [|done..].
  case_decide as Hcond; [done|]. injection Hq as ->.
  apply Hcond. split; [by apply (Hall rel f)|done].
Qed.

(** X3.  Every file the pruner removes is reported: a path that was a
    regular file before and is nothing afterwards lies below the root and
    its relative path has been printed in a "Deleted unlisted file"
    line. *)
Theorem prune_reports_every_removal (root_dir : path) (allowed_files : list string)
    (s : state) :
  ∃ s' : state,
    delete_unlisted_files root_dir allowed_files s = Ok tt s' ∧
    ∀ q f, stat q (fs s) = Some (KFile f) →
           stat q (fs s') = None →
           ∃ rel, q = root_dir ++ rel ∧
                  os_path_relpath q root_dir = sep_join rel ∧
                  DeletedUnlisted (sep_join rel) ∈ stdout s'.
Proof.
  destruct (delete_unlisted_files_visits root_dir allowed_files s)
    as (s' & L & Hrun & Hloop & HL & Hsound & _ & Hstat).
  exists s'. split; [done|]. intros q f Hbefore Hafter.
  rewrite Hstat, Hbefore in Hafter. unfold pruned_stat in Hafter.
  case_decide as Hcond; [|done]. destruct Hcond as (Hin & Hout & Hrm).
  destruct (Hsound q Hin) as (rel & f' & Hrel & -> & _).
  exists rel. split; [done|].
  pose proof (relpath_under root_dir rel Hrel) as Hrelpath.
  split; [done|]. rewrite <- Hrelpath.
  by apply (prune_loop_reports_deleted root_dir allowed_files L HL s s' _ f).
Qed.

Lemma template_paths_allowed (root_dir p : path) :
  p ∈ template_paths root_dir →
  os_path_relpath p root_dir ∈ default_files_to_keep.
Proof.
  unfold template_paths. cbn -[os_path_relpath default_files_to_keep app].
  change (os_path_join root_dir "README.md") with (root_dir ++ ["README.md"]).
  change (os_path_join root_dir "config/config.yaml")
    with (root_dir ++ ["config"; "config.yaml"]).
  change (os_path_join (os_path_join root_dir "notebooks") "data_analysis.ipynb")
    with ((root_dir ++ ["notebooks"]) ++ ["data_analysis.ipynb"]).
  change (os_path_join (os_path_join root_dir "scripts") "fetch_data.py")
    with ((root_dir ++ ["scripts"]) ++ ["fetch_data.py"]).
  change (os_path_join (os_path_join root_dir "scripts") "process_data.py")
    with ((root_dir ++ ["scripts"]) ++ ["process_data.py"]).
  rewrite <- !app_assoc. cbn [app].
  intros Hp. repeat (apply elem_of_cons in Hp as [->|Hp]);
    [..|by apply elem_of_nil in Hp];
    (rewrite relpath_under; [|done]); vm_compute;
    repeat (first [apply list_elem_of_here|apply list_elem_of_further]).
Qed.

(** X4.  The default allow-list names the five template files: whatever
    the root, pruning with the default list leaves each template path
    exactly as it was. *)
Theorem default_list_keeps_templates (root_dir : path) (s : state) :
  ∃ s' : state,
    delete_unlisted_files root_dir default_files_to_keep s = Ok tt s' ∧
    length (template_paths root_dir) = 5 ∧
    ∀ p, p ∈ template_paths root_dir → stat p (fs s') = stat p (fs s).
Proof.
  destruct (delete_unlisted_files_visits root_dir default_files_to_keep s)
    as (s' & L & Hrun & _ & _ & _ & _ & Hstat).
  exists s'. split; [done|]. split; [done|].
  intros p Hp. rewrite Hstat. unfold pruned_stat.
  destruct (stat p (fs s)) as [[f|]|]; [|done..].
  rewrite decide_False; [done|]. intros (_ & Hout & _).
  by apply Hout, template_paths_allowed.
Qed.

(* ===================================================================== *)
(** ** The folders *)
(* ===================================================================== *)

Lemma stat_nil (n : node) : ∃ k, stat [] n = Some k.
Proof. unfold stat. simpl. destruct n; eauto. Qed.

Lemma stat_empty_dir (q : path) : q ≠ [] → stat q (Dir ∅) = None.
Proof. by destruct q. Qed.

(** [os.makedirs] makes the missing directories on the way to [p], and
    that is all it does. *)
Lemma makedirs_stat (p : path) :
  ∀ (t t' : node),
    makedirs p t = inr t' →
    ∀ q, stat q t' =
           match stat q t with
           | Some k => Some k
           | None => if decide (q `prefix_of` p) then Some KDir else None
           end.
Proof.
  induction p as [|x p IH]; intros t t' Hmk q.
  - simpl in Hmk. destruct t as [f|es]; [done|]. injection Hmk as <-.
    destruct (stat q (Dir es)) as [k|] eqn:Hq; [done|].
    rewrite decide_False; [done|]. intros ->%prefix_nil_inv.
    by destruct (stat_nil (Dir es)) as [k Hk]; rewrite Hk in Hq.
  - simpl in Hmk. destruct t as [f|es]; [done|].
    destruct (makedirs p (default (Dir ∅) (es !! x))) as [e|c] eqn:Hsub; [done|].
    injection Hmk as <-. specialize (IH _ _ Hsub).
    destruct q as [|y q]; [done|]. rewrite !stat_cons.
    destruct (decide (y = x)) as [->|Hy].
    + rewrite lookup_insert_eq, IH.
      destruct (es !! x) as [c0|] eqn:Hc0; simpl.
      * destruct (stat q c0); [done|].
        destruct (decide (q `prefix_of` p)) as [Hpre|Hpre].
        -- rewrite decide_True; [done|]. by apply prefix_cons.
        -- rewrite decide_False; [done|]. by intros ?%prefix_cons_inv_2.
      * destruct q as [|z q].
        -- change (stat [] (Dir ∅)) with (Some KDir). cbv beta iota.
           rewrite decide_True; [done|]. apply prefix_cons, prefix_nil.
        -- rewrite (stat_empty_dir (z :: q)); [|done].
           destruct (decide (z :: q `prefix_of` p)) as [Hpre|Hpre].
           ++ rewrite decide_True; [done|]. by apply prefix_cons.
           ++ rewrite decide_False; [done|]. by intros ?%prefix_cons_inv_2.
    + rewrite lookup_insert_ne; [|done].
      rewrite (decide_False (P := y :: q `prefix_of` x :: p));
        [|by intros ?%prefix_cons_inv_1].
      destruct (es !! y) as [c0|]; [by destruct (stat q c0)|done].
Qed.

Lemma makedirs_creates (p : path) (t t' : node) :
  makedirs p t = inr t' → stat p t' = Some KDir.
Proof.
  revert t t'. induction p as [|x p IH]; intros t t' Hmk; simpl in Hmk.
  - destruct t; [done|]. by injection Hmk as <-.
  - destruct t as [f|es]; [done|].
    destruct (makedirs p (default (Dir ∅) (es !! x))) as [e|c] eqn:Hsub; [done|].
    injection Hmk as <-. rewrite stat_cons, lookup_insert_eq. by eapply IH.
Qed.

(** [os.makedirs] with [exist_ok=True] on a directory that exists changes
    nothing. *)
Lemma makedirs_existing (p : path) :
  ∀ t, stat p t = Some KDir → makedirs p t = inr t.
Proof.
  induction p as [|x p IH]; intros t Hdir.
  - simpl. destruct t; [by unfold stat in Hdir|done].
  - destruct t as [f|es]; [by unfold stat in Hdir|].
    rewrite stat_cons in Hdir. simpl.
    destruct (es !! x) as [c|] eqn:Hc; [|done]. simpl.
    rewrite (IH c Hdir). by rewrite insert_id.
Qed.


Lemma only_new_dirs_refl (s : state) : only_new_dirs s s.
Proof. by split. Qed.

Lemma only_new_dirs_trans (s1 s2 s3 : state) :
  only_new_dirs s1 s2 → only_new_dirs s2 s3 → only_new_dirs s1 s3.
Proof. intros [H1 H1'] [H2 H2']. split; eauto. Qed.

(** One [os.makedirs]: what it does to the state, however it ends. *)
Lemma os_makedirs_cases (p : path) (s : state) :
  (∃ t', makedirs p (fs s) = inr t' ∧ os_makedirs p s = Ok tt (set_fs t' s) ∧
         stat p t' = Some KDir ∧ only_new_dirs s (set_fs t' s)) ∨
  (∃ e, makedirs p (fs s) = inl e ∧ os_makedirs p s = Raise e s).
Proof.
  unfold os_makedirs. destruct (makedirs p (fs s)) as [e|t'] eqn:Hmk.
  - right. by exists e.
  - left. exists t'. repeat split; [by eapply makedirs_creates|..]; cbn [fs set_fs].
    + intros q k Hq. by rewrite (makedirs_stat p _ _ Hmk q), Hq.
    + intros q f Hq. rewrite (makedirs_stat p _ _ Hmk q) in Hq.
      destruct (stat q (fs s)); [done|]. by case_decide.
Qed.

Section Folders.

Variable root_dir : path.

Lemma create_directories_spec (folders : list string) (s s' : state) :
  create_directories root_dir folders s = Ok tt s' →
  (∀ folder, folder ∈ folders →
             stat (os_path_join root_dir folder) (fs s') = Some KDir) ∧
  only_new_dirs s s' ∧
  stdout s' = stdout s ∧ procs s' = procs s.
Proof.
  unfold create_directories. revert s.
  induction folders as [|folder folders IH]; intros s Hrun.
  - injection Hrun as <-. repeat split; try done. by intros ? ?%elem_of_nil.
  - cbn [for_each] in Hrun. rewrite bind_unfold in Hrun.
    destruct (os_makedirs_cases (os_path_join root_dir folder) s)
      as [(t' & _ & Hmk & Hdir & Hstep)|(e & _ & Hmk)];
      rewrite Hmk in Hrun; [|done].
    destruct (IH _ Hrun) as (Hall & Hrest & Hout & Hprocs).
    split; [|split; [by eapply only_new_dirs_trans|done]].
    intros folder' [->|Hin]%elem_of_cons; [|by apply Hall].
    by apply Hrest.
Qed.

(** X5.  When [create_directories] ends normally, every folder of its
    list is a directory below the root; everything that existed before
    is still there unchanged, no regular file is new, and nothing has
    been printed. *)
Theorem create_directories_makes_folders (folders : list string) (s s' : state) :
  create_directories root_dir folders s = Ok tt s' →
  (∀ folder, folder ∈ folders →
             stat (os_path_join root_dir folder) (fs s') = Some KDir) ∧
  (∀ q k, stat q (fs s) = Some k → stat q (fs s') = Some k) ∧
  (∀ q f, stat q (fs s') = Some (KFile f) → stat q (fs s) = Some (KFile f)) ∧
  stdout s' = stdout s.
Proof.
  intros Hrun.
  destruct (create_directories_spec folders s s' Hrun) as (Hall & [Hkeep Hnew] & Hout & _).
  done.
Qed.


(** X7.  [create_directories] may be run again: on the state a normal run
    has left, a second run ends normally and leaves the tree as it is. *)
Theorem create_directories_again (folders : list string) (s s' : state) :
  create_directories root_dir folders s = Ok tt s' →
  create_directories root_dir folders s' = Ok tt s'.
Proof.
  intros Hrun.
  destruct (create_directories_spec folders s s' Hrun) as [Hall _].
  unfold create_directories. clear Hrun.
  induction folders as [|folder folders IH]; [done|].
  cbn [for_each]. rewrite bind_unfold. unfold os_makedirs at 1.
  rewrite (makedirs_existing _ _ (Hall folder (list_elem_of_here _ _))).
  destruct s'. cbn. apply IH. intros folder' Hin. by apply Hall, list_elem_of_further.
Qed.

End Folders.

(* ===================================================================== *)
(** ** The template writer: every way it can end *)
(* ===================================================================== *)

Section Preserved.

Variable R : state → state → Prop.
Hypothesis R_fs : ∀ s s', fs s' = fs s → R s s'.
Hypothesis R_trans : ∀ s1 s2 s3, R s1 s2 → R s2 s3 → R s1 s3.

Lemma preserves_ret {A} (a : A) : preserves R (ret a).
Proof. intros s. by apply R_fs. Qed.


Lemma preserves_bind {A B} (m : M A) (k : A → M B) :
  preserves R m → (∀ a, preserves R (k a)) → preserves R (bind m k).
Proof.
  intros Hm Hk s. rewrite bind_unfold. specialize (Hm s).
  destruct (m s) as [a s1|e s1]; [|done].
  eapply R_trans; [exact Hm|apply Hk].
Qed.

Lemma preserves_for_each {A} (l : list A) (body : A → M unit) :
  (∀ x, x ∈ l → preserves R (body x)) → preserves R (for_each l body).
Proof.
  induction l as [|x l IH]; intros Hbody; [apply preserves_ret|].
  cbn [for_each]. apply preserves_bind.
  - apply Hbody, list_elem_of_here.
  - intros _. apply IH. intros y Hy. by apply Hbody, list_elem_of_further.
Qed.

End Preserved.

Lemma same_files_fs (s s' : state) : fs s' = fs s → same_files s s'.
Proof. intros Hfs q. by rewrite Hfs. Qed.

Lemma same_files_trans (s1 s2 s3 : state) :
  same_files s1 s2 → same_files s2 s3 → same_files s1 s3.
Proof. intros H1 H2 q. by rewrite (H1 q), (H2 q). Qed.

Lemma os_makedirs_same_files (p : path) : preserves same_files (os_makedirs p).
Proof.
  intros s. destruct (os_makedirs_cases p s)
    as [(t' & _ & -> & _ & Hkeep & Hnew)|(e & _ & ->)]; [|by apply same_files_fs].
  intros q. split; intros [f Hf]; exists f; [by apply Hkeep|by apply Hnew].
Qed.

Section Writer.

Variable sha256_hexdigest : string → string.

Local Abbreviation create_file' := (create_file sha256_hexdigest).
Local Abbreviation printed s l :=
  {| fs := fs s; stdout := stdout s ++ [l]; procs := procs s |}.

(** [create_file], case by case. *)
Lemma create_file_cases (filepath : path) (content : string) (overwrite : bool)
    (s : state) :
  create_file' filepath content overwrite s =
    match resolve filepath (fs s) with
    | inl e => Ok tt (printed s (ErrorCheckingFile filepath e))
    | inr (Dir _) => Ok tt (printed s (ErrorCheckingFile filepath IsADirectoryError))
    | inr (File f) =>
        if can_read f then
          if overwrite && bool_decide (sha256_hexdigest (text f) = sha256_hexdigest content)
          then Ok tt (printed s (SameContentSkipping filepath))
          else if can_write f
               then Ok tt {| fs := tree_set filepath
                                     (Some (File (set_content content f))) (fs s);
                             stdout := stdout s ++ [UpdatingOrCreating filepath];
                             procs := procs s |}
               else Raise PermissionError (printed s (UpdatingOrCreating filepath))
        else Ok tt (printed s (ErrorCheckingFile filepath PermissionError))
    end.
Proof.
  unfold create_file, try_except. rewrite !bind_unfold. unfold open_r.
  destruct (resolve filepath (fs s)) as [e|[f|es]] eqn:Hres; [done| |done].
  destruct (can_read f); [|done].
  destruct overwrite; cbn [andb].
  - case_bool_decide as Hhash.
    + by rewrite decide_True.
    + rewrite decide_False; [|done]. cbn. unfold open_w. cbn [fs]. rewrite Hres.
      by destruct (can_write f).
  - cbn. unfold open_w. cbn [fs]. rewrite Hres. by destruct (can_write f).
Qed.

Lemma create_file_stat (filepath : path) (content : string) (overwrite : bool)
    (s : state) (q : path) :
  stat q (fs (state_of (create_file' filepath content overwrite s))) = stat q (fs s) ∨
  (q = filepath ∧
   ∃ f, stat q (fs s) = Some (KFile f) ∧
        stat q (fs (state_of (create_file' filepath content overwrite s)))
          = Some (KFile (set_content content f))).
Proof.
  rewrite create_file_cases.
  destruct (resolve filepath (fs s)) as [e|[f|es]] eqn:Hres; [by left| |by left].
  destruct (can_read f); [|by left].
  destruct (overwrite && _); [by left|].
  destruct (can_write f); [|by left].
  cbn [state_of fs]. destruct (decide (q = filepath)) as [->|Hq].
  - destruct filepath as [|x p]; [by left|]. right. split; [done|]. exists f.
    split; [by apply stat_file_iff|].
    unfold stat. by rewrite (resolve_tree_set_eq (x :: p) _ (fs s) f Hres).
  - left. apply stat_tree_set_other; [done| |done]. intros es. by rewrite Hres.
Qed.

(** X8.  However [create_file] ends, the one thing it can have changed is
    the text of the file at [filepath]: what [stat] reports at every
    other path is as before, and at [filepath] it is as before or the
    same file with the new content.  It creates no file, removes none,
    and starts no process. *)
Theorem create_file_changes_one_text (filepath : path) (content : string)
    (overwrite : bool) (s : state) :
  let s' := state_of (create_file' filepath content overwrite s) in
  (∀ q, q ≠ filepath → stat q (fs s') = stat q (fs s)) ∧
  (stat filepath (fs s') = stat filepath (fs s) ∨
   ∃ f, stat filepath (fs s) = Some (KFile f) ∧
        stat filepath (fs s') = Some (KFile (set_content content f))) ∧
  procs s' = procs s.
Proof.
  cbn zeta. split; [|split].
  - intros q Hq.
    by destruct (create_file_stat filepath content overwrite s q) as [->|(? & _)].
  - destruct (create_file_stat filepath content overwrite s filepath)
      as [->|(_ & f & Hbefore & Hafter)]; [by left|].
    right. by exists f.
  - apply create_file_no_process.
Qed.

Lemma create_file_same_files (filepath : path) (content : string) (overwrite : bool) :
  preserves same_files (create_file' filepath content overwrite).
Proof.
  intros s q.
  destruct (create_file_stat filepath content overwrite s q)
    as [->|(_ & f & -> & ->)]; [done|].
  split; intros _; eauto.
Qed.

Lemma create_file_elsewhere (filepath : path) (content : string) (overwrite : bool)
    (q : path) :
  q ≠ filepath →
  preserves (λ s s', stat q (fs s') = stat q (fs s))
    (create_file' filepath content overwrite).
Proof.
  intros Hq s.
  by destruct (create_file_stat filepath content overwrite s q) as [->|(? & _)].
Qed.

(** X9.  [create_file] on a file that cannot be opened for reading, or on
    a directory: the error is printed, the function returns normally, and
    the state is otherwise as it was, for both values of [overwrite]. *)
Theorem create_file_unreadable_untouched (filepath : path) (content : string)
    (overwrite : bool) (s : state) :
  (∃ f, resolve filepath (fs s) = inr (File f) ∧ can_read f = false) ∨
  (∃ es, resolve filepath (fs s) = inr (Dir es)) →
  ∃ e, (e = PermissionError ∨ e = IsADirectoryError) ∧
       create_file' filepath content overwrite s =
         Ok tt (printed s (ErrorCheckingFile filepath e)).
Proof.
  rewrite create_file_cases. intros [(f & -> & ->)|(es & ->)].
  - exists PermissionError. by split; [left|].
  - exists IsADirectoryError. by split; [right|].
Qed.

(** X10.  [create_file] on a file that can be read but not written, when
    the file is to be written (always with [overwrite=False]; with
    [overwrite=True] when the digests differ): "Updating or creating" is
    printed, [open] for writing raises [PermissionError], nothing catches
    it, and the tree is as it was. *)
Theorem create_file_write_failure_is_raised (filepath : path) (content : string)
    (overwrite : bool) (s : state) (f : file) :
  resolve filepath (fs s) = inr (File f) →
  can_read f = true →
  can_write f = false →
  overwrite = false ∨ sha256_hexdigest (text f) ≠ sha256_hexdigest content →
  create_file' filepath content overwrite s =
    Raise PermissionError (printed s (UpdatingOrCreating filepath)).
Proof.
  intros Hres Hread Hwrite Hwritten. rewrite create_file_cases, Hres, Hread, Hwrite.
  destruct Hwritten as [->|Hhash]; [done|].
  rewrite bool_decide_eq_false_2; [|done]. by rewrite andb_false_r.
Qed.


(** X12.  However [create_files] ends, the paths that are regular files
    are the same as before, and [stat] reports what it reported before
    at every path that is not the path of one of the listed files. *)
Theorem create_files_changes_listed_texts_only (root_dir : path)
    (files : list (string * string)) (overwrite : bool) (s : state) :
  let s' := state_of (create_files sha256_hexdigest root_dir files overwrite s) in
  same_files s s' ∧
  ∀ q, (∀ filepath content, (filepath, content) ∈ files →
                            q ≠ os_path_join root_dir filepath) →
       stat q (fs s') = stat q (fs s).
Proof.
  cbn zeta. unfold create_files. split.
  - apply (preserves_for_each same_files same_files_fs same_files_trans).
    intros [filepath content] _. apply create_file_same_files.
  - intros q Hq.
    apply (preserves_for_each (λ s s', stat q (fs s') = stat q (fs s))).
    + intros s1 s2 Hfs. by rewrite Hfs.
    + intros s1 s2 s3 H12 H23. by rewrite H23.
    + intros [filepath content] Hin. apply create_file_elsewhere.
      by apply (Hq filepath content).
Qed.

End Writer.

(* ===================================================================== *)
(** ** The whole run: what else it does and does not do *)
(* ===================================================================== *)

Lemma ascii_lower_y (c : ascii) :
  ascii_lower c = "y"%char ↔ c = "y"%char ∨ c = "Y"%char.
Proof.
  split.
  - destruct c as [[] [] [] [] [] [] [] []]; vm_compute;
      intros H; try discriminate H; auto.
  - by intros [->| ->].
Qed.

Lemma str_lower_empty (typed : string) :
  str_lower typed = EmptyString → typed = EmptyString.
Proof. by destruct typed. Qed.

(** X17.  An answer at a prompt counts as yes exactly when the line typed
    is [y] or [Y]: [yes], [ y] and the empty line all count as no. *)
Theorem answered_yes_iff (typed : string) :
  answered_yes typed = true ↔ typed = "y" ∨ typed = "Y".
Proof.
  unfold answered_yes. rewrite bool_decide_eq_true. split.
  - destruct typed as [|c rest]; [done|]. cbn [str_lower].
    intros [= Hc Hrest]. apply str_lower_empty in Hrest as ->.
    apply ascii_lower_y in Hc as [->| ->]; auto.
  - by intros [->| ->].
Qed.

Section RunMore.

Variable sha256_hexdigest : string → string.
Variable venv_create : path → node → exn + node.
Variable json_load : string → option (list string).
Variable child : list string → path → node → exn + (Z * node).
Variable getcwd : path.
Variable os_name : string.

Local Abbreviation write_templates' :=
  (write_templates sha256_hexdigest venv_create os_name).
Local Abbreviation load_files_to_keep' := (load_files_to_keep json_load getcwd).
Local Abbreviation create_project_structure' :=
  (create_project_structure sha256_hexdigest venv_create json_load getcwd os_name).

(** X13.  Of all the steps that write the templates, only [venv.create]
    makes regular files: whether the folders and the template files are
    then written normally or an exception ends the run, the paths that
    are regular files at the end are those that were regular files when
    the environment had been created. *)
Theorem write_templates_makes_no_file (root_dir : path) (overwrite : bool)
    (s s0 : state) :
  create_and_activate_venv venv_create os_name root_dir s = Ok tt s0 →
  same_files s0 (state_of (write_templates' root_dir overwrite s)).
Proof.
  intros Hvenv. unfold write_templates. rewrite bind_unfold, Hvenv.
  apply (preserves_bind same_files same_files_trans).
  { apply (preserves_for_each same_files same_files_fs same_files_trans).
    intros folder _. apply os_makedirs_same_files. }
  intros _. apply (preserves_bind same_files same_files_trans).
  { apply (preserves_for_each same_files same_files_fs same_files_trans).
    intros [filepath content] _. apply create_file_same_files. }
  intros _. apply (preserves_for_each same_files same_files_fs same_files_trans).
  intros [group filenames] _.
  apply (preserves_for_each same_files same_files_fs same_files_trans).
  intros filename _. apply create_file_same_files.
Qed.


(** X15.  When the manifest can be read and parses, its list is the
    allow-list and the default list plays no part: the run ends normally,
    and of the regular files below the root when the templates had been
    written, those named in the manifest are kept as they were and the
    others, where removal succeeds, are gone. *)
Theorem manifest_list_is_used (project_name : string) (overwrite install_deps : bool)
    (s s1 : state) (m : file) (files_to_keep : list string) :
  let root_dir := os_path_join getcwd project_name in
  write_templates' root_dir overwrite s = Ok tt s1 →
  resolve (os_path_join getcwd "files_to_keep.json") (fs s1) = inr (File m) →
  can_read m = true →
  json_load (text m) = Some files_to_keep →
  ∃ s' : state,
    create_project_structure' project_name overwrite install_deps s = Ok tt s' ∧
    ∀ rel f,
      rel ≠ [] →
      stat (root_dir ++ rel) (fs s1) = Some (KFile f) →
      (os_path_relpath (root_dir ++ rel) root_dir ∈ files_to_keep →
         stat (root_dir ++ rel) (fs s') = Some (KFile f)) ∧
      ((os_path_relpath (root_dir ++ rel) root_dir ∉ files_to_keep) →
         can_remove f = true →
         stat (root_dir ++ rel) (fs s') = None).
Proof.
  intros root_dir Hwt Hres Hread Hjson.
  rewrite (run_after_templates _ _ _ _ _ _ _ _ s s1 Hwt), bind_unfold.
  assert (load_files_to_keep' s1 = Ok files_to_keep s1) as ->.
  { unfold load_files_to_keep, try_except. rewrite bind_unfold. unfold open_r.
    by rewrite Hres, Hread, Hjson. }
  destruct (run_tail root_dir files_to_keep project_name install_deps s1)
    as (s2 & s' & Hprune & Hrun & Hfs & _).
  exists s'. split; [exact Hrun|].
  destruct (delete_unlisted_files_visits root_dir files_to_keep s1)
    as (s2' & L & Hprune' & _ & _ & _ & Hall & Hstat).
  rewrite Hprune in Hprune'. injection Hprune' as <-.
  intros rel f Hrel Hbefore. rewrite Hfs, Hstat, Hbefore. unfold pruned_stat. split.
  - intros Hin. rewrite decide_False; [done|]. by intros (_ & ? & _).
  - intros Hout' Hrm. rewrite decide_True; [done|].
    split; [by apply (Hall rel f)|done].
Qed.

(** X16.  [run_npm_command] handles a non-zero exit status and nothing
    else: when the child cannot be started, the exception of
    [subprocess.run] passes the handler and ends the function, with
    nothing printed. *)
Theorem npm_start_failure_is_raised (project_path : path) (command : string)
    (s : state) (e : exn) :
  child ["npm"; command] project_path (fs s) = inl e →
  is_CalledProcessError e = false →
  run_npm_command child project_path command s =
    Raise e {| fs := fs s; stdout := stdout s;
               procs := procs s ++ [(["npm"; command], project_path)] |}.
Proof.
  intros Hchild Hclass. unfold run_npm_command, try_except, subprocess_run_check.
  by rewrite Hchild, Hclass.
Qed.

End RunMore.

(* ===================================================================== *)
(** ** Further runs on concrete trees *)
(* ===================================================================== *)

(** X5 on a first run: the folders below [myapp], made in an empty
    working directory. *)
Lemma create_directories_makes_folders_witness :
  let s' := state_of (create_directories (home ++ ["myapp"]) folders (world fresh_tree)) in
  stat (os_path_join (home ++ ["myapp"]) "data/raw") (fs s') = Some KDir ∧
  stat (os_path_join (home ++ ["myapp"]) "config") (fs s') = Some KDir ∧
  stat home (fs s') = Some KDir.
Proof.
  cbn zeta.
  destruct (create_directories_makes_folders (home ++ ["myapp"]) folders
              (world fresh_tree)
              (state_of (create_directories (home ++ ["myapp"]) folders
                           (world fresh_tree))))
    as (Hall & Hkeep & _); [vm_compute; reflexivity|].
  split; [|split].
  - apply Hall. apply list_elem_of_here.
  - apply Hall. do 4 apply list_elem_of_further. apply list_elem_of_here.
  - apply Hkeep. vm_compute. reflexivity.
Defined.

(** X7 on the same run: making the folders once more changes nothing. *)
Lemma create_directories_again_witness :
  let s' := state_of (create_directories (home ++ ["myapp"]) folders (world fresh_tree)) in
  create_directories (home ++ ["myapp"]) folders s' = Ok tt s'.
Proof.
  cbn zeta.
  apply (create_directories_again (home ++ ["myapp"]) folders (world fresh_tree)).
  vm_compute. reflexivity.
Defined.

(** X9 on a file that may not be read. *)
Lemma create_file_unreadable_untouched_witness :
  ∃ e, (e = PermissionError ∨ e = IsADirectoryError) ∧
       create_file plain_digest (home ++ ["myapp"; "secret"]) "new" true
         (world read_only_tree) =
         Ok tt {| fs := read_only_tree;
                  stdout := [ErrorCheckingFile (home ++ ["myapp"; "secret"]) e];
                  procs := [] |}.
Proof.
  apply (create_file_unreadable_untouched plain_digest
           (home ++ ["myapp"; "secret"]) "new" true (world read_only_tree)).
  left. eexists. split; [vm_compute; reflexivity|reflexivity].
Defined.

(** X10 on a README that may be read but not written. *)
Lemma create_file_write_failure_is_raised_witness :
  create_file plain_digest (home ++ ["myapp"; "README.md"]) "# Project Title" false
    (world read_only_tree) =
    Raise PermissionError
      {| fs := read_only_tree;
         stdout := [UpdatingOrCreating (home ++ ["myapp"; "README.md"])];
         procs := [] |}.
Proof.
  apply (create_file_write_failure_is_raised plain_digest
           (home ++ ["myapp"; "README.md"]) "# Project Title" false
           (world read_only_tree)
           {| text := "my notes"; can_read := true; can_write := false;
              can_remove := true |}).
  - vm_compute. reflexivity.
  - reflexivity.
  - reflexivity.
  - left. reflexivity.
Defined.


(** X13 on a first run: the two files of the environment are the only
    regular files once the templates are "written". *)
Lemma write_templates_makes_no_file_witness :
  same_files
    (state_of (create_and_activate_venv small_venv_create "posix" (home ++ ["myapp"])
                 (world fresh_tree)))
    (state_of (write_templates plain_digest small_venv_create "posix"
                 (home ++ ["myapp"]) false (world fresh_tree))).
Proof.
  apply (write_templates_makes_no_file plain_digest small_venv_create "posix"
           (home ++ ["myapp"]) false (world fresh_tree)).
  vm_compute. reflexivity.
Defined.


(** X15 with a manifest that holds the empty array: the README, which is
    on the default list, is removed at the end of the run. *)
Lemma manifest_list_is_used_witness :
  ∃ s' : state,
    create_project_structure plain_digest small_venv_create empty_array_json_load
      home "posix" "myapp" true true (world empty_manifest_tree) = Ok tt s' ∧
    stat (os_path_join home "myapp" ++ ["README.md"]) (fs s') = None.
Proof.
  destruct (manifest_list_is_used plain_digest small_venv_create
              empty_array_json_load home "posix" "myapp" true true
              (world empty_manifest_tree)
              (state_of (write_templates plain_digest small_venv_create "posix"
                           (os_path_join home "myapp") true
                           (world empty_manifest_tree)))
              (new_file "[]") [])
    as (s' & Hrun & Hfiles).
  - vm_compute. reflexivity.
  - vm_compute. reflexivity.
  - reflexivity.
  - reflexivity.
  - exists s'. split; [exact Hrun|].
    destruct (Hfiles ["README.md"] (new_file "# Project Title

Project description goes here.")) as [_ Hgone].
    + discriminate.
    + vm_compute. reflexivity.
    + apply Hgone; [apply not_elem_of_nil|reflexivity].
Defined.

(** X16 where [npm] is not installed. *)
Lemma npm_start_failure_is_raised_witness :
  run_npm_command missing_npm (home ++ ["myapp"]) "install" (world used_tree) =
    Raise FileNotFoundError
      {| fs := used_tree; stdout := [];
         procs := [(["npm"; "install"], home ++ ["myapp"])] |}.
Proof.
  apply (npm_start_failure_is_raised missing_npm (home ++ ["myapp"]) "install"
           (world used_tree) FileNotFoundError); reflexivity.
Defined.

(* ===================================================================== *)
(** ** The run stays inside the project *)
(* ===================================================================== *)




Section Inside.

Variable sha256_hexdigest : string → string.
Variable venv_create : path → node → exn + node.
Variable json_load : string → option (list string).
Variable getcwd : path.
Variable os_name : string.






End Inside.

